(** * CustomOS Guardian: the Ollama client script

    A shallow embedding of [scripts/ai/ollama_client.py].  The script reads a
    JSON metrics blob from standard input, renders a prompt, posts it to an
    Ollama endpoint and prints the verdict; every failure is meant to end in
    silence.

    Python strings are sequences of code points, the objects [json.loads]
    builds are an inductive type, and a computation is a pair of the I/O
    events it performed and the value it returned or the exception it
    raised. *)

From Stdlib Require Import List Bool Ascii String ZArith NArith Lia.
From Stdlib Require DecimalString.
Import ListNotations.

Set Implicit Arguments.
Set Warnings "-register-all".
Set Default Proof Using "Type".

(* ================================================================== *)
(** * Python strings *)

(** A [str] is its sequence of Unicode code points. *)
Definition str : Type := list N.

(** A literal of the source: ASCII text, one code point per character. *)
Definition u (s : string) : str := map N_of_ascii (list_ascii_of_string s).
Arguments u : simpl never.

(** The characters a literal of this file cannot hold as text. *)
Definition NL : N := 10.
Definition TAB : N := 9.
Definition SPACE : N := 32.
Definition DQUOTE : N := 34.
Definition quoted (s : str) : str := DQUOTE :: s ++ [DQUOTE].

Fixpoint str_eqb (a b : str) : bool :=
  match a, b with
  | [], [] => true
  | x :: a', y :: b' => N.eqb x y && str_eqb a' b'
  | _, _ => false
  end.

(** [s.startswith(p)] *)
Fixpoint startswith (s p : str) {struct p} : bool :=
  match p, s with
  | [], _ => true
  | x :: p', y :: s' => N.eqb x y && startswith s' p'
  | _ :: _, [] => false
  end.

(** [needle in hay] *)
Fixpoint str_in (needle hay : str) : bool :=
  startswith hay needle ||
  match hay with
  | [] => false
  | _ :: hay' => str_in needle hay'
  end.

Fixpoint take_while (p : N -> bool) (s : str) : str :=
  match s with
  | c :: s' => if p c then c :: take_while p s' else []
  | [] => []
  end.

Fixpoint drop_while (p : N -> bool) (s : str) : str :=
  match s with
  | c :: s' => if p c then drop_while p s' else s
  | [] => []
  end.

(** [str.isspace] on one character: the code points CPython's
    [_PyUnicode_IsWhitespace] accepts. *)
Definition isspace (c : N) : bool :=
  ((9 <=? c) && (c <=? 13) || (28 <=? c) && (c <=? 32)
   || (c =? 133) || (c =? 160) || (c =? 5760)
   || (8192 <=? c) && (c <=? 8202)
   || (c =? 8232) || (c =? 8233) || (c =? 8239) || (c =? 8287)
   || (c =? 12288))%N.

(** [s.lstrip()], [s.rstrip()] and [s.strip()] with no argument. *)
Definition lstrip (s : str) : str := drop_while isspace s.
Definition rstrip (s : str) : str := rev (drop_while isspace (rev s)).
Definition strip (s : str) : str := rstrip (lstrip s).

(** [a or b] for two strings: the empty string is the only false one. *)
Definition py_or_str (a b : str) : str :=
  match a with
  | [] => b
  | _ => a
  end.



(** [s.split(sep)] for a one-character separator, and [sep.join(parts)]. *)
Fixpoint split_on (sep : N) (s : str) : list str :=
  match s with
  | [] => [[]]
  | c :: s' =>
      if N.eqb c sep then [] :: split_on sep s'
      else match split_on sep s' with
           | l :: ls => (c :: l) :: ls
           | [] => [[c]]
           end
  end.

Fixpoint join_with (sep : N) (parts : list str) : str :=
  match parts with
  | [] => []
  | [l] => l
  | l :: ls => l ++ sep :: join_with sep ls
  end.

Definition split_lines : str -> list str := split_on NL.
Definition join_lines : list str -> str := join_with NL.

(* ================================================================== *)
(** * textwrap.dedent

    CPython's [textwrap.dedent] works line by line, a line being what lies
    between two newlines (the regular expressions it uses are compiled with
    [re.MULTILINE]). *)

Definition is_space_tab (c : N) : bool := N.eqb c SPACE || N.eqb c TAB.

(** [_whitespace_only_re.sub('', text)]: a line matching [^[ \t]+$]
    becomes empty. *)
Definition whitespace_only (l : str) : bool :=
  match l with
  | [] => false
  | _ => forallb is_space_tab l
  end.

Definition whitespace_only_sub (text : str) : str :=
  join_lines
    (map (fun l => if whitespace_only l then [] else l) (split_lines text)).

(** [_leading_whitespace_re.findall(text)]: the run of spaces and tabs at the
    start of every line that holds another character. *)
Definition leading_whitespace_findall (text : str) : list str :=
  flat_map
    (fun l =>
       match drop_while is_space_tab l with
       | [] => []
       | _ :: _ => [take_while is_space_tab l]
       end)
    (split_lines text).

(** The loop [for i, (x, y) in enumerate(zip(margin, indent))], which cuts
    the margin at the first position where the two differ. *)
Fixpoint cut_at_difference (margin indent : str) : str :=
  match margin, indent with
  | x :: margin', y :: indent' =>
      if N.eqb x y then x :: cut_at_difference margin' indent' else []
  | _, _ => margin
  end.

(** One turn of [for indent in indents]. *)
Definition margin_step (margin : option str) (indent : str) : option str :=
  match margin with
  | None => Some indent
  | Some m =>
      if startswith indent m then Some m
      else if startswith m indent then Some indent
      else Some (cut_at_difference m indent)
  end.

(** [re.sub(r'(?m)^' + margin, '', text)] *)
Definition margin_sub (margin text : str) : str :=
  join_lines
    (map (fun l => if startswith l margin then skipn (List.length margin) l else l)
         (split_lines text)).

Definition dedent (text : str) : str :=
  let text := whitespace_only_sub text in
  let indents := leading_whitespace_findall text in
  match fold_left margin_step indents None with
  | Some (c :: m) => margin_sub (c :: m) text
  | _ => text
  end.

(* ================================================================== *)
(** * Python objects and exceptions *)

(** A [float] as [json.loads] makes one: [float(literal)] is the binary64
    number nearest to the decimal literal.  The script never computes with a
    float; it tests it for truth and hands it to [str()], so the literal is
    kept and the rounding is applied where it is observed. *)
Inductive pyfloat : Type :=
| FNaN
| FInf (negative : bool)
| FDec (negative : bool) (digits : N) (exp10 : Z).

(** The objects the script handles: what [json.loads] and [resp.json()]
    return.  A [dict] keeps its keys in insertion order. *)
Inductive value : Type :=
| PyNone
| PyBool (b : bool)
| PyInt (z : Z)
| PyFloat (f : pyfloat)
| PyStr (s : str)
| PyList (items : list value)
| PyDict (items : list (str * value)).

(** Lookup in a mapping with [str] keys: [d.get(k)] at the level of the
    mapping itself. *)
Fixpoint dict_get {V : Type} (d : list (str * V)) (k : str) : option V :=
  match d with
  | [] => None
  | (k', v) :: d' => if str_eqb k' k then Some v else dict_get d' k
  end.

(** [d[k] = v]: an existing key keeps its place. *)
Fixpoint dict_set {V : Type} (d : list (str * V)) (k : str) (v : V)
  : list (str * V) :=
  match d with
  | [] => [(k, v)]
  | (k', v') :: d' =>
      if str_eqb k' k then (k, v) :: d' else (k', v') :: dict_set d' k v
  end.

(** [float(literal) == 0.0]: the literal is zero, or it is at most half the
    smallest subnormal, [2^-1075], and rounds to zero. *)
Definition float_is_zero (f : pyfloat) : bool :=
  match f with
  | FNaN | FInf _ => false
  | FDec _ digits exp10 =>
      (digits =? 0)%N
      || (exp10 <? 0)%Z
         && (Z.of_N digits * 2 ^ 1075 <=? 10 ^ (- exp10))%Z
  end.

(** Truth value testing, [bool(v)]. *)
Definition truthy (v : value) : bool :=
  match v with
  | PyNone => false
  | PyBool b => b
  | PyInt z => negb (Z.eqb z 0)
  | PyFloat f => negb (float_is_zero f)
  | PyStr s => match s with [] => false | _ => true end
  | PyList l => match l with [] => false | _ => true end
  | PyDict d => match d with [] => false | _ => true end
  end.

(** Instances of [Exception], by class. *)
Inductive exception : Type :=
| ImportError
| UnicodeDecodeError
| UnicodeEncodeError
| JSONDecodeError
| AttributeError
| ConnectionError
| ReadTimeout
| HTTPError
| OtherException (class_name : string).

(** What a computation can raise: an [Exception], or the [SystemExit] of
    [sys.exit], which derives from [BaseException] only and so passes
    through [except Exception]. *)
Inductive raised : Type :=
| Exc (e : exception)
| SystemExit (code : Z).

(** The outcome of a call into a library or into the outside world. *)
Inductive outcome (A : Type) : Type :=
| Returns (a : A)
| Raises (e : exception).
Arguments Returns {A} a.
Arguments Raises {A} e.

(* ================================================================== *)
(** * The runtime and the outside world *)

(** The two library functions whose results the script passes on without
    looking inside: [json.loads] (which [resp.json()] uses as well) and the
    [str()] that an f-string applies to a replacement field.  Both are total
    on their arguments and deterministic; nothing else is assumed of them. *)
Class Runtime : Type := {
  json_loads : str -> outcome value;
  py_str : value -> str;
}.

(** [requests.post(url, json=..., timeout=...)] *)
Record Request : Type := {
  url : str;
  json : value;
  timeout : Z;
}.

(** The [requests.Response] the script looks at: the status line and the
    decoded body. *)
Record Response : Type := {
  status_code : Z;
  text : str;
}.

(** One run's surroundings: whether [import requests] works, the process
    environment, what standard input holds, how the HTTP layer answers a
    request (with a response, or with an exception such as a refused
    connection or a timeout), and which texts the encoding of standard
    output can encode (UTF-8 encodes everything but a lone surrogate; ASCII
    or Latin-1 far less).  Standard output is taken to be an open stream:
    only its encoding can refuse a text. *)
Record World : Type := {
  import_requests : option exception;
  environ : list (str * str);
  stdin : outcome str;
  endpoint : Request -> outcome Response;
  stdout_encodes : str -> bool;
}.

(** The I/O a run performs, in order. *)
Inductive event : Type :=
| EnvGet (name : str)
| StdinRead
| HttpPost (req : Request)
| Stdout (written : str).

(** * Computations: a log of events and a result *)

Inductive result (A : Type) : Type :=
| Return (a : A)
| Raise (r : raised).
Arguments Return {A} a.
Arguments Raise {A} r.

Definition M (A : Type) : Type := (list event * result A)%type.

Definition ret {A : Type} (a : A) : M A := ([], Return a).

Definition bind {A B : Type} (m : M A) (f : A -> M B) : M B :=
  match m with
  | (tr, Return a) => let (tr', r) := f a in (tr ++ tr', r)
  | (tr, Raise e) => (tr, Raise e)
  end.

Notation "x <- m ;; k" := (bind m (fun x => k))
  (at level 61, m at next level, right associativity).
Notation "m ;;; k" := (bind m (fun _ => k))
  (at level 61, right associativity).

Definition raise {A : Type} (e : exception) : M A := ([], Raise (Exc e)).

Definition emit (e : event) : M unit := ([e], Return tt).

Definition lift {A : Type} (o : outcome A) : M A :=
  match o with
  | Returns a => ret a
  | Raises e => raise e
  end.

(** [try: body  except Exception: handler] *)
Definition try_except {A : Type} (body : M A) (handler : exception -> M A)
  : M A :=
  match body with
  | (tr, Raise (Exc e)) => let (tr', r) := handler e in (tr ++ tr', r)
  | _ => body
  end.

(** [sys.exit(code)] *)
Definition sys_exit {A : Type} (code : Z) : M A := ([], Raise (SystemExit code)).

(** [obj.get(key, default)]: only a [dict] has the method. *)
Definition py_get (obj : value) (key : str) (default : value) : M value :=
  match obj with
  | PyDict d =>
      ret match dict_get d key with Some v => v | None => default end
  | _ => raise AttributeError
  end.

(** [obj.strip()]: only a [str] has the method. *)
Definition py_strip (obj : value) : M str :=
  match obj with
  | PyStr s => ret (strip s)
  | _ => raise AttributeError
  end.

(** [resp.raise_for_status()]: a 4xx or 5xx status raises [HTTPError]. *)
Definition raise_for_status (resp : Response) : M unit :=
  if ((400 <=? status_code resp) && (status_code resp <? 600))%Z
  then raise HTTPError
  else ret tt.

(* ================================================================== *)
(** * The script *)

(** The module-level constants [OLLAMA_API_URL] and [OLLAMA_MODEL]. *)
Record Config : Type := {
  OLLAMA_API_URL : str;
  OLLAMA_MODEL : str;
}.

(** The f-string of [build_prompt], between its triple quotes: it opens with
    a newline, every line carries the eight spaces of the source's
    indentation, and the closing quotes stand after eight more. *)
Definition prompt_template (cpu memory services : str) : str :=
  join_lines
    [ [];
      u "        You are the CustomOS Guardian, a concise monitoring assistant.";
      [];
      u "        Your job:";
      u "          - Look at CPU, memory, and service status.";
      u "          - Respond with ONE or two short sentences.";
      u "          - If everything looks fine, say "
        ++ quoted (u "All systems green.");
      u "          - If any problem is detected, mention it explicitly";
      u "            (e.g., " ++ quoted (u "Issue detected in Plex service")
        ++ u ").";
      [];
      u "        Data (JSON):";
      u "        CPU load: " ++ cpu;
      u "        Memory: " ++ memory;
      u "        Services: " ++ services;
      [];
      u "        Respond with a short human-friendly verdict only, no JSON, no extra explanation.";
      u "        " ].

(** The request [call_ollama] sends. *)
Definition generate_request (cfg : Config) (prompt : str) : Request :=
  {| url := OLLAMA_API_URL cfg;
     json := PyDict [ (u "model", PyStr (OLLAMA_MODEL cfg));
                      (u "prompt", PyStr prompt);
                      (u "stream", PyBool false) ];
     timeout := 15 |}.

(** What the caller of the process observes: the I/O performed, the exit
    status, and the exception reported on standard error, if any. *)
Record Exit : Type := {
  trace : list event;
  exit_status : Z;
  traceback : option exception;
}.

Section Script.
Context {RT : Runtime}.
Variable w : World.

(** [os.environ.get(name, default)] *)
Definition os_environ_get (name default : str) : M str :=
  emit (EnvGet name) ;;;
  ret match dict_get (environ w) name with
      | Some v => v
      | None => default
      end.

(** [sys.stdin.read()] *)
Definition sys_stdin_read : M str :=
  emit StdinRead ;;; lift (stdin w).

(** [requests.post(...)] *)
Definition requests_post (req : Request) : M Response :=
  emit (HttpPost req) ;;; lift (endpoint w req).

(** [resp.json()] *)
Definition response_json (resp : Response) : M value :=
  lift (json_loads (text resp)).

(** [print(s)]: the text, then a newline, written to standard output.  The
    stream encodes the text as it takes it; when its encoding cannot, the
    write raises [UnicodeEncodeError] and nothing is written.  The newline
    is a character every encoding of a Python stream has. *)
Definition print (s : str) : M unit :=
  if stdout_encodes w s then emit (Stdout (s ++ [NL]))
  else raise UnicodeEncodeError.

Definition build_prompt (metrics : value) : M str :=
  services <- py_get metrics (u "services") (PyDict []) ;;
  memory <- py_get metrics (u "memory") (PyDict []) ;;
  cpu <- py_get metrics (u "cpu_load") (PyDict []) ;;
  let prompt :=
    strip (dedent (prompt_template (py_str cpu) (py_str memory)
                                   (py_str services))) in
  ret prompt.

(** The body of the [try] in [call_ollama]. *)
Definition call_ollama_try (cfg : Config) (prompt : str) : M str :=
  resp <- requests_post (generate_request cfg prompt) ;;
  raise_for_status resp ;;;
  data <- response_json resp ;;
  text <- (a <- py_get data (u "response") PyNone ;;
           if truthy a then ret a
           else b <- py_get data (u "text") PyNone ;;
                if truthy b then ret b else ret (PyStr [])) ;;
  py_strip text.

Definition call_ollama (cfg : Config) (prompt : str) : M str :=
  try_except (call_ollama_try cfg prompt) (fun _ => ret []).

Definition main (cfg : Config) : M unit :=
  metrics <- try_except
               (raw <- sys_stdin_read ;;
                lift (json_loads (py_or_str raw (u "{}"))))
               (fun _ => sys_exit 0) ;;
  prompt <- build_prompt metrics ;;
  verdict <- call_ollama cfg prompt ;;
  match verdict with
  | [] => ret tt
  | _ => print verdict
  end.

(** The module body, run as a script: the guarded import, the two
    constants, and the call of [main]. *)
Definition ollama_client : M unit :=
  try_except
    match import_requests w with
    | None => ret tt
    | Some e => raise e
    end
    (fun _ => sys_exit 0) ;;;
  api_url <- os_environ_get (u "OLLAMA_API_URL")
                            (u "http://localhost:11434/api/generate") ;;
  model <- os_environ_get (u "OLLAMA_MODEL") (u "llama3") ;;
  main {| OLLAMA_API_URL := api_url; OLLAMA_MODEL := model |}.

(** The interpreter around the module body: a normal end and [sys.exit(0)]
    give status 0; an exception that reaches the top is reported on
    standard error and gives status 1. *)
Definition run : Exit :=
  let (tr, r) := ollama_client in
  match r with
  | Return _ => {| trace := tr; exit_status := 0; traceback := None |}
  | Raise (SystemExit code) =>
      {| trace := tr; exit_status := code; traceback := None |}
  | Raise (Exc e) => {| trace := tr; exit_status := 1; traceback := Some e |}
  end.
End Script.

(** What a run wrote to standard output, and the requests it posted. *)
Definition stdout_of (tr : list event) : str :=
  flat_map (fun e => match e with Stdout s => s | _ => [] end) tr.

Definition posts_of (tr : list event) : list Request :=
  flat_map (fun e => match e with HttpPost r => [r] | _ => [] end) tr.

Definition env_reads_of (tr : list event) : list str :=
  flat_map (fun e => match e with EnvGet n => [n] | _ => [] end) tr.

Definition stdout {RT : Runtime} (w : World) : str := stdout_of (trace (run w)).

(* ================================================================== *)
(** * A reference runtime

    A concrete [json.loads] and [str()], used to run the script on concrete
    inputs.  The decoder follows CPython's [json.decoder] and [json.scanner]
    (strict mode, no hooks); it does not model the interpreter's limits
    (recursion depth, digits of an integer).  The theorems below hold for
    every runtime and do not depend on it. *)
Module Reference.

Definition BACKSLASH : N := 92.

(** [WHITESPACE = re.compile(r'[ \t\n\r]*')] *)
Definition is_json_ws (c : N) : bool :=
  ((c =? 32) || (c =? 9) || (c =? 10) || (c =? 13))%N.
Definition skip_ws (s : str) : str := drop_while is_json_ws s.

Definition is_digit (c : N) : bool := ((48 <=? c) && (c <=? 57))%N.

Definition hex_value (c : N) : option N :=
  if is_digit c then Some (c - 48)%N
  else if ((97 <=? c) && (c <=? 102))%N then Some (c - 87)%N
  else if ((65 <=? c) && (c <=? 70))%N then Some (c - 55)%N
  else None.

(** [_decode_uXXXX] *)
Definition decode_uXXXX (a b c d : N) : option N :=
  match hex_value a, hex_value b, hex_value c, hex_value d with
  | Some x3, Some x2, Some x1, Some x0 =>
      Some (((x3 * 16 + x2) * 16 + x1) * 16 + x0)%N
  | _, _, _, _ => None
  end.

(** The table [BACKSLASH] of [json.decoder]. *)
Definition simple_escape (c : N) : option N :=
  if (c =? 34)%N then Some 34%N
  else if (c =? 92)%N then Some 92%N
  else if (c =? 47)%N then Some 47%N
  else if (c =? 98)%N then Some 8%N
  else if (c =? 102)%N then Some 12%N
  else if (c =? 110)%N then Some 10%N
  else if (c =? 114)%N then Some 13%N
  else if (c =? 116)%N then Some 9%N
  else None.

(** [py_scanstring], entered after the opening quote: the decoded string
    and what follows the closing quote. *)
Fixpoint scanstring (fuel : nat) (s : str) : option (str * str) :=
  match fuel with
  | O => None
  | S fuel =>
      match s with
      | [] => None
      | c :: s1 =>
          if (c =? DQUOTE)%N then Some ([], s1)
          else if (c <? 32)%N then None
          else if (c =? BACKSLASH)%N then
            match s1 with
            | [] => None
            | e :: s2 =>
                if (e =? 117)%N then
                  match s2 with
                  | h3 :: h2 :: h1 :: h0 :: s3 =>
                      match decode_uXXXX h3 h2 h1 h0 with
                      | None => None
                      | Some uni =>
                          let alone :=
                            match scanstring fuel s3 with
                            | Some (t, rest) => Some (uni :: t, rest)
                            | None => None
                            end in
                          if ((55296 <=? uni) && (uni <=? 56319))%N then
                            match s3 with
                            | 92%N :: 117%N :: l3 :: l2 :: l1 :: l0 :: s4 =>
                                match decode_uXXXX l3 l2 l1 l0 with
                                | None => None
                                | Some uni2 =>
                                    if ((56320 <=? uni2) && (uni2 <=? 57343))%N
                                    then
                                      match scanstring fuel s4 with
                                      | Some (t, rest) =>
                                          Some ((65536
                                                 + (uni - 55296) * 1024
                                                 + (uni2 - 56320))%N :: t,
                                                rest)
                                      | None => None
                                      end
                                    else alone
                                end
                            | 92%N :: 117%N :: _ => None
                            | _ => alone
                            end
                          else alone
                      end
                  | _ => None
                  end
                else
                  match simple_escape e with
                  | None => None
                  | Some ch =>
                      match scanstring fuel s2 with
                      | Some (t, rest) => Some (ch :: t, rest)
                      | None => None
                      end
                  end
            end
          else
            match scanstring fuel s1 with
            | Some (t, rest) => Some (c :: t, rest)
            | None => None
            end
      end
  end.

Fixpoint digits_value (acc : N) (ds : str) : N :=
  match ds with
  | [] => acc
  | d :: ds' => digits_value (acc * 10 + (d - 48))%N ds'
  end.

(** [NUMBER_RE]: an optional minus sign, then [0] or a run of digits that
    does not start with [0]; an optional fraction, a dot and digits; an
    optional exponent, [e] or [E], an optional sign and digits.  A fraction
    or an exponent makes the value a [float]. *)
Definition match_number (s : str) : option (value * str) :=
  let (negative, s0) :=
    match s with
    | 45%N :: s' => (true, s')
    | _ => (false, s)
    end in
  let int_digits :=
    match s0 with
    | 48%N :: _ => [48%N]
    | _ => take_while is_digit s0
    end in
  match int_digits with
  | [] => None
  | _ =>
      let s1 := skipn (List.length int_digits) s0 in
      let frac :=
        match s1 with
        | 46%N :: s' => take_while is_digit s'
        | _ => []
        end in
      let s2 :=
        match frac with
        | [] => s1
        | _ => skipn (S (List.length frac)) s1
        end in
      let '(exp, s3) :=
        match s2 with
        | e :: s' =>
            if ((e =? 101) || (e =? 69))%N then
              let '(exp_negative, s'') :=
                match s' with
                | 45%N :: t => (true, t)
                | 43%N :: t => (false, t)
                | _ => (false, s')
                end in
              match take_while is_digit s'' with
              | [] => (None, s2)
              | ds =>
                  (Some (if exp_negative
                         then (- Z.of_N (digits_value 0 ds))%Z
                         else Z.of_N (digits_value 0 ds)),
                   skipn (List.length ds) s'')
              end
            else (None, s2)
        | [] => (None, s2)
        end in
      match frac, exp with
      | [], None =>
          let n := Z.of_N (digits_value 0 int_digits) in
          Some (PyInt (if negative then (- n)%Z else n), s3)
      | _, _ =>
          Some (PyFloat
                  (FDec negative (digits_value 0 (int_digits ++ frac))
                        (match exp with Some x => x | None => 0%Z end
                         - Z.of_nat (List.length frac))),
                s3)
      end
  end.

(** [dict(pairs)] *)
Definition dict_of_pairs (pairs : list (str * value)) : list (str * value) :=
  fold_left (fun d kv => dict_set d (fst kv) (snd kv)) pairs [].

(** [scan_once], with the loops of [JSONArray] and [JSONObject]. *)
Fixpoint scan_once (fuel : nat) (s : str) : option (value * str) :=
  match fuel with
  | O => None
  | S fuel =>
      match s with
      | [] => None
      | c :: s1 =>
          if (c =? DQUOTE)%N then
            match scanstring (S (List.length s1)) s1 with
            | Some (t, rest) => Some (PyStr t, rest)
            | None => None
            end
          else if (c =? 123)%N then
            match skip_ws s1 with
            | 125%N :: rest => Some (PyDict [], rest)
            | 34%N :: s2 => object_loop fuel s2 []
            | _ => None
            end
          else if (c =? 91)%N then
            match skip_ws s1 with
            | 93%N :: rest => Some (PyList [], rest)
            | s2 => array_loop fuel s2 []
            end
          else if startswith s (u "null") then Some (PyNone, skipn 4 s)
          else if startswith s (u "true") then Some (PyBool true, skipn 4 s)
          else if startswith s (u "false") then Some (PyBool false, skipn 5 s)
          else
            match match_number s with
            | Some r => Some r
            | None =>
                if startswith s (u "NaN") then Some (PyFloat FNaN, skipn 3 s)
                else if startswith s (u "Infinity")
                then Some (PyFloat (FInf false), skipn 8 s)
                else if startswith s (u "-Infinity")
                then Some (PyFloat (FInf true), skipn 9 s)
                else None
            end
      end
  end

with array_loop (fuel : nat) (s : str) (values : list value)
  : option (value * str) :=
  match fuel with
  | O => None
  | S fuel =>
      match scan_once fuel s with
      | None => None
      | Some (v, rest) =>
          match skip_ws rest with
          | 93%N :: rest' => Some (PyList (values ++ [v]), rest')
          | 44%N :: rest' => array_loop fuel (skip_ws rest') (values ++ [v])
          | _ => None
          end
      end
  end

with object_loop (fuel : nat) (s : str) (pairs : list (str * value))
  : option (value * str) :=
  match fuel with
  | O => None
  | S fuel =>
      match scanstring (S (List.length s)) s with
      | None => None
      | Some (key, rest) =>
          match skip_ws rest with
          | 58%N :: rest1 =>
              match scan_once fuel (skip_ws rest1) with
              | None => None
              | Some (v, rest2) =>
                  match skip_ws rest2 with
                  | 125%N :: rest3 =>
                      Some (PyDict (dict_of_pairs (pairs ++ [(key, v)])),
                            rest3)
                  | 44%N :: rest3 =>
                      match skip_ws rest3 with
                      | 34%N :: rest4 =>
                          object_loop fuel rest4 (pairs ++ [(key, v)])
                      | _ => None
                      end
                  | _ => None
                  end
              end
          | _ => None
          end
      end
  end.

(** [json.loads(s)] for a [str]: no byte order mark, one value, and
    nothing but whitespace around it. *)
Definition loads (s : str) : outcome value :=
  match s with
  | 65279%N :: _ => Raises JSONDecodeError
  | _ =>
      match scan_once (2 * List.length s + 4) (skip_ws s) with
      | Some (v, rest) =>
          match skip_ws rest with
          | [] => Returns v
          | _ => Raises JSONDecodeError
          end
      | None => Raises JSONDecodeError
      end
  end.

(** ** [str()] and [repr()] *)

Definition of_decimal (s : string) : str := u s.

Definition int_repr (z : Z) : str :=
  of_decimal (DecimalString.NilZero.string_of_int (Z.to_int z)).

Definition nat_repr (n : N) : str :=
  of_decimal (DecimalString.NilZero.string_of_uint (N.to_uint n)).

Definition hex_digit (n : N) : N :=
  if (n <? 10)%N then (48 + n)%N else (87 + n)%N.

(** [width] lower-case hexadecimal digits of [n]. *)
Fixpoint hex_digits (width : nat) (n : N) : str :=
  match width with
  | O => []
  | S width' => hex_digits width' (n / 16)%N ++ [hex_digit (n mod 16)%N]
  end.

(** [str.isprintable] on one character.  Exact on ASCII; beyond it, where
    CPython consults the Unicode database, this takes a code point to be
    printable unless it is a C1 control, a no-break space, a soft hyphen
    or a surrogate. *)
Definition isprintable (c : N) : bool :=
  if (c <? 127)%N then (32 <=? c)%N
  else negb ((c <=? 160) || (c =? 173)
             || (55296 <=? c) && (c <=? 57343))%N.

(** [repr(s)] for a [str]: single quotes unless the text holds a single
    quote and no double quote. *)
Definition str_repr (s : str) : str :=
  let quote :=
    if existsb (N.eqb 39) s && negb (existsb (N.eqb 34) s)
    then 34%N else 39%N in
  let escape (c : N) : str :=
    if ((c =? quote) || (c =? 92))%N then [92%N; c]
    else if (c =? 9)%N then u "\t"
    else if (c =? 10)%N then u "\n"
    else if (c =? 13)%N then u "\r"
    else if isprintable c then [c]
    else if (c <=? 255)%N then u "\x" ++ hex_digits 2 c
    else if (c <=? 65535)%N then u "\u" ++ hex_digits 4 c
    else u "\U" ++ hex_digits 8 c in
  quote :: flat_map escape s ++ [quote].

(** [repr(x)] for a [float].  Exact when the literal has at most fifteen
    significant digits and lies in the normal range of binary64, where the
    shortest digits that round-trip are the literal's own. *)
Definition float_repr (f : pyfloat) : str :=
  match f with
  | FNaN => u "nan"
  | FInf negative => if negative then u "-inf" else u "inf"
  | FDec negative digits exp10 =>
      let sign := if negative then u "-" else [] in
      if (digits =? 0)%N then sign ++ u "0.0"
      else
        let all := nat_repr digits in
        let ds := rev (drop_while (N.eqb 48) (rev all)) in
        let n := Z.of_nat (List.length ds) in
        let decpt := (Z.of_nat (List.length all) + exp10)%Z in
        if ((decpt <=? -4) || (16 <? decpt))%Z then
          let e := (decpt - 1)%Z in
          let mantissa :=
            match ds with
            | d :: (_ :: _) as more => d :: 46%N :: more
            | _ => ds
            end in
          let e_digits := nat_repr (Z.to_N (Z.abs e)) in
          sign ++ mantissa ++ u "e"
            ++ (if (e <? 0)%Z then u "-" else u "+")
            ++ (match e_digits with [_] => u "0" | _ => [] end)
            ++ e_digits
        else if (decpt <=? 0)%Z then
          sign ++ u "0." ++ repeat 48%N (Z.to_nat (- decpt)) ++ ds
        else if (decpt <? n)%Z then
          sign ++ firstn (Z.to_nat decpt) ds ++ u "."
            ++ skipn (Z.to_nat decpt) ds
        else
          sign ++ ds ++ repeat 48%N (Z.to_nat (decpt - n)) ++ u ".0"
  end.

Fixpoint join_str (sep : str) (parts : list str) : str :=
  match parts with
  | [] => []
  | [p] => p
  | p :: ps => p ++ sep ++ join_str sep ps
  end.

Fixpoint repr (v : value) : str :=
  match v with
  | PyNone => u "None"
  | PyBool b => if b then u "True" else u "False"
  | PyInt z => int_repr z
  | PyFloat f => float_repr f
  | PyStr s => str_repr s
  | PyList items => u "[" ++ join_str (u ", ") (map repr items) ++ u "]"
  | PyDict items =>
      u "{"
        ++ join_str (u ", ")
             (map (fun kv => str_repr (fst kv) ++ u ": " ++ repr (snd kv))
                  items)
        ++ u "}"
  end.

(** [str(v)]: a [str] is itself, everything else is its [repr]. *)
Definition str_of (v : value) : str :=
  match v with
  | PyStr s => s
  | _ => repr v
  end.

Definition runtime : Runtime :=
  {| json_loads := loads; py_str := str_of |}.

End Reference.

(* ================================================================== *)
(** * Concrete runs *)

(** JSON text written with single quotes where the text has double quotes:
    [json_text "{'a': 'b'}"] is the seven-token object with double-quoted
    strings. *)
Definition json_text (s : string) : str :=
  map (fun c => if N.eqb c 39 then DQUOTE else c) (u s).

(** What the UTF-8 codec encodes: every text without a surrogate code
    point (U+D800 to U+DFFF). *)
Definition utf8_encodes (s : str) : bool :=
  forallb (fun c => negb ((55296 <=? c) && (c <=? 57343))%N) s.

(** What the ASCII codec encodes: code points below 128. *)
Definition ascii_encodes (s : str) : bool :=
  forallb (fun c => (c <? 128)%N) s.

(** A machine where [requests] is installed, no variable is set, standard
    input holds [input], the endpoint gives every request the same
    [answer], and standard output is UTF-8. *)
Definition mocked (input : str) (answer : outcome Response) : World :=
  {| import_requests := None;
     environ := [];
     stdin := Returns input;
     endpoint := fun _ => answer;
     stdout_encodes := utf8_encodes |}.

(** The endpoint answers 200 with the given body. *)
Definition ok_with (body : str) : outcome Response :=
  Returns {| status_code := 200; text := body |}.

(** The same machine without [requests]. *)
Definition without_requests (w : World) : World :=
  {| import_requests := Some ImportError;
     environ := environ w;
     stdin := stdin w;
     endpoint := endpoint w;
     stdout_encodes := stdout_encodes w |}.

(** The same machine with other text on standard input. *)
Definition with_stdin (w : World) (input : str) : World :=
  {| import_requests := import_requests w;
     environ := environ w;
     stdin := Returns input;
     endpoint := endpoint w;
     stdout_encodes := stdout_encodes w |}.

(** The same machine with another encoding of standard output. *)
Definition with_stdout (w : World) (encodes : str -> bool) : World :=
  {| import_requests := import_requests w;
     environ := environ w;
     stdin := stdin w;
     endpoint := endpoint w;
     stdout_encodes := encodes |}.

(* ================================================================== *)
(** * What the statements below speak of *)

(** What [main] gets out of standard input: the decoded text, empty input
    standing for [{}], or the exception of the read or of the decoder. *)
Definition parsed_stdin {RT : Runtime} (w : World) : outcome value :=
  match stdin w with
  | Raises e => Raises e
  | Returns raw => json_loads (py_or_str raw (u "{}"))
  end.

(** The two constants as the module body sets them. *)
Definition getenv (w : World) (name default : str) : str :=
  match dict_get (environ w) name with
  | Some v => v
  | None => default
  end.

Definition startup_config (w : World) : Config :=
  {| OLLAMA_API_URL :=
       getenv w (u "OLLAMA_API_URL") (u "http://localhost:11434/api/generate");
     OLLAMA_MODEL := getenv w (u "OLLAMA_MODEL") (u "llama3") |}.

(** The events of the module body before [main] runs. *)
Definition startup_events : list event :=
  [EnvGet (u "OLLAMA_API_URL"); EnvGet (u "OLLAMA_MODEL")].

(** What [call_ollama] returns once [text] is chosen: [text.strip()], or the
    empty string of the handler when [text] has no such method. *)
Definition text_or_empty (v : value) : str :=
  match v with
  | PyStr s => strip s
  | _ => []
  end.

(** The status is one [raise_for_status] lets through. *)
Definition status_ok (resp : Response) : bool :=
  negb ((400 <=? status_code resp) && (status_code resp <? 600))%Z.

(** The value of [data.get("response") or data.get("text") or ""] for a
    [dict]. *)
Definition chosen_text (data : list (str * value)) : value :=
  let response :=
    match dict_get data (u "response") with Some v => v | None => PyNone end in
  let text :=
    match dict_get data (u "text") with Some v => v | None => PyNone end in
  if truthy response then response
  else if truthy text then text
  else PyStr [].

(** The verdict for each answer of the HTTP layer. *)
Definition verdict_of {RT : Runtime} (answer : outcome Response) : str :=
  match answer with
  | Raises _ => []
  | Returns resp =>
      if status_ok resp then
        match json_loads (text resp) with
        | Returns (PyDict data) => text_or_empty (chosen_text data)
        | _ => []
        end
      else []
  end.

(** The prompt [build_prompt] returns for a [dict]. *)
Definition rendered_prompt {RT : Runtime} (d : list (str * value)) : str :=
  match build_prompt (PyDict d) with
  | (_, Return prompt) => prompt
  | _ => []
  end.


(** ** Four readings that the script does not bear out

    Each is a sentence of the specification read to the letter; the
    theorems further down state what holds instead. *)


(** Once both keys are present, the value under ["response"] decides the
    verdict. *)
Definition response_used_whenever_present : Prop :=
  forall (RT : Runtime) (w : World) (cfg : Config) (prompt : str)
         (resp : Response) (data : list (str * value)) (r t : value),
    endpoint w (generate_request cfg prompt) = Returns resp ->
    status_ok resp = true ->
    json_loads (text resp) = Returns (PyDict data) ->
    dict_get data (u "response") = Some r ->
    dict_get data (u "text") = Some t ->
    snd (call_ollama w cfg prompt) = Return (text_or_empty r).

(** Whatever the decoder rejects on standard input ends the run in
    silence. *)
Definition rejected_input_is_silent : Prop :=
  forall (RT : Runtime) (w : World) (raw : str) (e : exception),
    import_requests w = None ->
    stdin w = Returns raw ->
    json_loads raw = Raises e ->
    stdout w = [] /\ exit_status (run w) = 0%Z.

(** A non-empty string under ["text"], behind a false ["response"], is
    printed stripped. *)
Definition fallback_text_is_printed : Prop :=
  forall (RT : Runtime) (w : World) (d : list (str * value))
         (resp : Response) (data : list (str * value)) (r : value) (s : str),
    import_requests w = None ->
    parsed_stdin w = Returns (PyDict d) ->
    endpoint w (generate_request (startup_config w) (rendered_prompt d))
      = Returns resp ->
    status_ok resp = true ->
    json_loads (text resp) = Returns (PyDict data) ->
    dict_get data (u "response") = Some r ->
    truthy r = false ->
    dict_get data (u "text") = Some (PyStr s) ->
    s <> [] ->
    snd (call_ollama w (startup_config w) (rendered_prompt d))
      = Return (strip s)
    /\ stdout w = strip s ++ [NL].


(* ================================================================== *)
(** * Further vocabulary: the prompt as text, the shape of a run *)

(** [s.endswith(t)] *)
Definition endswith (s t : str) : bool := startswith (rev s) (rev t).

(** The text holds no newline. *)
Definition no_newline (s : str) : bool :=
  forallb (fun c => negb (N.eqb c NL)) s.

(** [metrics.get(key, {})] for a [dict]. *)
Definition metric (d : list (str * value)) (key : string) : value :=
  match dict_get d (u key) with
  | Some v => v
  | None => PyDict []
  end.

(** The first and the last line of the prompt. *)
Definition prompt_head : str :=
  u "You are the CustomOS Guardian, a concise monitoring assistant.".

Definition prompt_foot : str :=
  u "Respond with a short human-friendly verdict only, no JSON, no extra explanation.".

(** The template with its margin of eight spaces and its blank ends
    removed. *)
Definition flush_prompt (cpu memory services : str) : str :=
  join_lines
    [ prompt_head;
      [];
      u "Your job:";
      u "  - Look at CPU, memory, and service status.";
      u "  - Respond with ONE or two short sentences.";
      u "  - If everything looks fine, say "
        ++ quoted (u "All systems green.");
      u "  - If any problem is detected, mention it explicitly";
      u "    (e.g., " ++ quoted (u "Issue detected in Plex service")
        ++ u ").";
      [];
      u "Data (JSON):";
      u "CPU load: " ++ cpu;
      u "Memory: " ++ memory;
      u "Services: " ++ services;
      [];
      prompt_foot ].

(** The same machine with another HTTP layer. *)
Definition with_endpoint (w : World) (f : Request -> outcome Response)
  : World :=
  {| import_requests := import_requests w;
     environ := environ w;
     stdin := stdin w;
     endpoint := f;
     stdout_encodes := stdout_encodes w |}.


(** The lines of the template once blank lines are emptied. *)
Definition emptied_template (cpu memory services : str) : list str :=
  [ [];
    u "        You are the CustomOS Guardian, a concise monitoring assistant.";
    [];
    u "        Your job:";
    u "          - Look at CPU, memory, and service status.";
    u "          - Respond with ONE or two short sentences.";
    u "          - If everything looks fine, say "
      ++ quoted (u "All systems green.");
    u "          - If any problem is detected, mention it explicitly";
    u "            (e.g., " ++ quoted (u "Issue detected in Plex service")
      ++ u ").";
    [];
    u "        Data (JSON):";
    u "        CPU load: " ++ cpu;
    u "        Memory: " ++ memory;
    u "        Services: " ++ services;
    [];
    u "        Respond with a short human-friendly verdict only, no JSON, no extra explanation.";
    [] ].

(** The lines of [flush_prompt] but the last. *)
Definition flush_lines (cpu memory services : str) : list str :=
  [ prompt_head;
    [];
    u "Your job:";
    u "  - Look at CPU, memory, and service status.";
    u "  - Respond with ONE or two short sentences.";
    u "  - If everything looks fine, say "
      ++ quoted (u "All systems green.");
    u "  - If any problem is detected, mention it explicitly";
    u "    (e.g., " ++ quoted (u "Issue detected in Plex service")
      ++ u ").";
    [];
    u "Data (JSON):";
    u "CPU load: " ++ cpu;
    u "Memory: " ++ memory;
    u "Services: " ++ services;
    [] ].

(** Solves [Forall] goals saying that each line of a list, a literal or a
    literal followed by one of the three values, holds no newline. *)
Ltac lines_are_clean :=
  repeat (apply Forall_cons;
          [first [ vm_compute; reflexivity
                 | rewrite forallb_app; apply andb_true_iff; split;
                   [vm_compute; reflexivity | assumption] ]
          |]);
  apply Forall_nil.

(** Proves an equation between two bracketings of one concatenation. *)
Ltac same_concatenation :=
  repeat (progress (cbn [app]; rewrite <- ?app_assoc)); reflexivity.

(* ================================================================== *)
(** * Strings: facts *)

Lemma str_eqb_eq (a b : str) : str_eqb a b = true <-> a = b.
Proof.
  revert b; induction a as [|x a IH]; intros [|y b]; simpl;
    try (split; [discriminate | discriminate]); try tauto.
  rewrite andb_true_iff, N.eqb_eq, IH.
  split; [intros [-> ->]; reflexivity | intros [= -> ->]; auto].
Qed.


Lemma str_eqb_neq (a b : str) : a <> b -> str_eqb a b = false.
Proof.
  intros Hne; destruct (str_eqb a b) eqn:E; [|reflexivity].
  apply str_eqb_eq in E; contradiction.
Qed.

Lemma startswith_spec (p s : str) :
  startswith s p = true <-> exists r, s = p ++ r.
Proof.
  revert s; induction p as [|x p IH]; intros s; simpl.
  - split; [intros _; now exists s | reflexivity].
  - destruct s as [|y s].
    + split; [discriminate | intros [r Hr]; discriminate].
    + rewrite andb_true_iff, N.eqb_eq, IH. split.
      * intros [-> [r ->]]. now exists r.
      * intros [r [= -> ->]]. split; [reflexivity | now exists r].
Qed.












(** ** Lines *)

Lemma split_on_not_nil (sep : N) (s : str) : split_on sep s <> [].
Proof.
  destruct s as [|c s]; simpl; [discriminate|].
  destruct (N.eqb c sep); [discriminate|].
  destruct (split_on sep s); discriminate.
Qed.

Lemma join_split (sep : N) (s : str) : join_with sep (split_on sep s) = s.
Proof.
  induction s as [|c s IH]; [reflexivity|]. simpl.
  destruct (N.eqb c sep) eqn:E.
  - apply N.eqb_eq in E as ->.
    pose proof (split_on_not_nil sep s) as Hne.
    destruct (split_on sep s) as [|l ls]; [contradiction|].
    simpl in *. now rewrite IH.
  - pose proof (split_on_not_nil sep s) as Hne.
    destruct (split_on sep s) as [|l ls]; [contradiction|].
    destruct ls; simpl in *; now rewrite <- IH.
Qed.







(** ** textwrap.dedent: facts *)

Lemma cut_at_difference_blank (m i : str) :
  forallb is_space_tab m = true ->
  forallb is_space_tab (cut_at_difference m i) = true.
Proof.
  revert i; induction m as [|x m IH]; intros i H; [now destruct i|].
  simpl in H. apply andb_true_iff in H as [Hx Hm].
  destruct i as [|y i]; simpl; [now rewrite Hx, Hm|].
  destruct (N.eqb x y); [simpl; now rewrite Hx, IH | reflexivity].
Qed.

Lemma take_while_all (p : N -> bool) (s : str) :
  forallb p (take_while p s) = true.
Proof.
  induction s as [|c s IH]; [reflexivity|]. simpl.
  destruct (p c) eqn:E; [simpl; now rewrite E, IH | reflexivity].
Qed.

(** The margin [dedent] removes is made of spaces and tabs. *)
Lemma margin_blank (indents : list str) (start : option str) (m : str) :
  Forall (fun i => forallb is_space_tab i = true) indents ->
  (forall m0, start = Some m0 -> forallb is_space_tab m0 = true) ->
  fold_left margin_step indents start = Some m ->
  forallb is_space_tab m = true.
Proof.
  intros Hall; revert start.
  induction Hall as [|i indents Hi _ IH]; intros start Hstart; simpl.
  - intros ->. now apply Hstart.
  - apply IH. intros m0. destruct start as [m1|]; simpl.
    + specialize (Hstart m1 eq_refl).
      destruct (startswith i m1); [intros [= <-]; exact Hstart|].
      destruct (startswith m1 i); intros [= <-];
        [exact Hi | now apply cut_at_difference_blank].
    + intros [= <-]. exact Hi.
Qed.

Lemma leading_whitespace_blank (text : str) :
  Forall (fun i => forallb is_space_tab i = true)
         (leading_whitespace_findall text).
Proof.
  unfold leading_whitespace_findall.
  apply Forall_forall. intros i Hi.
  apply in_flat_map in Hi as (l & _ & Hi).
  destruct (drop_while is_space_tab l); [contradiction|].
  destruct Hi as [<- | []]. apply take_while_all.
Qed.



(* ================================================================== *)
(** * The script: how a run unfolds *)

Lemma bind_ret (A B : Type) (a : A) (f : A -> M B) : bind (ret a) f = f a.
Proof. unfold bind, ret. now destruct (f a). Qed.


Section Runs.
Context {RT : Runtime}.
Variable w : World.

Lemma build_prompt_dict (d : list (str * value)) :
  build_prompt (PyDict d) = ret (rendered_prompt d).
Proof. reflexivity. Qed.

Lemma build_prompt_not_dict (v : value) :
  (forall d, v <> PyDict d) -> build_prompt v = raise AttributeError.
Proof. destruct v; intros H; try reflexivity. now destruct (H items). Qed.

(** [call_ollama] posts once and returns the verdict of the answer. *)
Lemma call_ollama_eq (cfg : Config) (prompt : str) :
  call_ollama w cfg prompt =
  ([HttpPost (generate_request cfg prompt)],
   Return (verdict_of (endpoint w (generate_request cfg prompt)))).
Proof.
  unfold call_ollama, call_ollama_try, requests_post, verdict_of.
  destruct (endpoint w (generate_request cfg prompt)) as [resp|e];
    [|reflexivity].
  unfold raise_for_status, status_ok, response_json, emit, lift.
  cbn [bind ret app].
  destruct ((400 <=? status_code resp) && (status_code resp <? 600))%Z;
    [reflexivity|].
  cbn [bind ret app negb].
  destruct (json_loads (text resp)) as [data|e]; [|reflexivity].
  destruct data as [| | | | |items|data]; try reflexivity.
  unfold chosen_text, py_get. cbn [bind ret app].
  destruct (dict_get data (u "response")) as [a|];
    [destruct (truthy a) eqn:Ea|].
  1: now destruct a.
  all: cbn [truthy bind ret app];
    destruct (dict_get data (u "text")) as [b|];
    [destruct (truthy b) eqn:Eb; [now destruct b | reflexivity]
    | reflexivity].
Qed.

(** [main], by what standard input holds. *)
Lemma main_eq (cfg : Config) :
  main w cfg =
  match parsed_stdin w with
  | Raises _ => ([StdinRead], Raise (SystemExit 0))
  | Returns (PyDict d) =>
      let req := generate_request cfg (rendered_prompt d) in
      match verdict_of (endpoint w req) with
      | [] => ([StdinRead; HttpPost req], Return tt)
      | verdict =>
          if stdout_encodes w verdict
          then ([StdinRead; HttpPost req; Stdout (verdict ++ [NL])],
                Return tt)
          else ([StdinRead; HttpPost req], Raise (Exc UnicodeEncodeError))
      end
  | Returns _ => ([StdinRead], Raise (Exc AttributeError))
  end.
Proof.
  unfold main, parsed_stdin, sys_stdin_read, emit, lift.
  destruct (stdin w) as [raw|e]; [|reflexivity].
  cbn [bind ret app].
  destruct (json_loads (py_or_str raw (u "{}"))) as [v|e]; [|reflexivity].
  cbn [try_except ret bind app].
  destruct v as [| | | | | |d]; try reflexivity.
  rewrite build_prompt_dict, bind_ret, call_ollama_eq.
  cbn [bind app]. cbv zeta.
  destruct (verdict_of _) as [|c v]; [reflexivity|].
  unfold print, emit, raise.
  now destruct (stdout_encodes w (c :: v)).
Qed.

(** The whole run, by whether [requests] can be imported. *)
Lemma run_eq :
  run w =
  match import_requests w with
  | Some _ => {| trace := []; exit_status := 0; traceback := None |}
  | None =>
      match main w (startup_config w) with
      | (tr, Return _) =>
          {| trace := startup_events ++ tr; exit_status := 0;
             traceback := None |}
      | (tr, Raise (SystemExit code)) =>
          {| trace := startup_events ++ tr; exit_status := code;
             traceback := None |}
      | (tr, Raise (Exc e)) =>
          {| trace := startup_events ++ tr; exit_status := 1;
             traceback := Some e |}
      end
  end.
Proof.
  unfold run, ollama_client, os_environ_get, emit.
  destruct (import_requests w); [reflexivity|].
  cbn [try_except ret bind app].
  fold (getenv w (u "OLLAMA_API_URL")
               (u "http://localhost:11434/api/generate")).
  fold (getenv w (u "OLLAMA_MODEL") (u "llama3")).
  fold (startup_config w).
  destruct (main w (startup_config w)) as [tr [[]|[e|code]]]; reflexivity.
Qed.

Lemma run_without_requests (e : exception) :
  import_requests w = Some e ->
  run w = {| trace := []; exit_status := 0; traceback := None |}.
Proof. intros H. now rewrite run_eq, H. Qed.

Lemma run_unreadable (e : exception) :
  import_requests w = None -> parsed_stdin w = Raises e ->
  run w = {| trace := startup_events ++ [StdinRead]; exit_status := 0;
             traceback := None |}.
Proof. intros Hi Hp. now rewrite run_eq, Hi, main_eq, Hp. Qed.

(** An object on standard input: the request is posted, and the run ends by
    what [print] does with the verdict. *)
Lemma run_object (d : list (str * value)) :
  import_requests w = None -> parsed_stdin w = Returns (PyDict d) ->
  run w =
  let req := generate_request (startup_config w) (rendered_prompt d) in
  match verdict_of (endpoint w req) with
  | [] =>
      {| trace := startup_events ++ [StdinRead; HttpPost req];
         exit_status := 0;
         traceback := None |}
  | verdict =>
      if stdout_encodes w verdict
      then {| trace := startup_events
                         ++ [StdinRead; HttpPost req;
                             Stdout (verdict ++ [NL])];
              exit_status := 0;
              traceback := None |}
      else {| trace := startup_events ++ [StdinRead; HttpPost req];
              exit_status := 1;
              traceback := Some UnicodeEncodeError |}
  end.
Proof.
  intros Hi Hp. rewrite run_eq, Hi, main_eq, Hp. cbv zeta.
  destruct (verdict_of _) as [|c v]; [reflexivity|].
  now destruct (stdout_encodes w (c :: v)).
Qed.

Lemma run_not_object (v : value) :
  import_requests w = None -> parsed_stdin w = Returns v ->
  (forall d, v <> PyDict d) ->
  run w = {| trace := startup_events ++ [StdinRead]; exit_status := 1;
             traceback := Some AttributeError |}.
Proof.
  intros Hi Hp Hv. rewrite run_eq, Hi, main_eq, Hp.
  destruct v; try reflexivity. now destruct (Hv items).
Qed.

(** What an object on standard input makes the run print. *)
Lemma stdout_object (d : list (str * value)) :
  import_requests w = None -> parsed_stdin w = Returns (PyDict d) ->
  stdout w =
  match verdict_of (endpoint w (generate_request (startup_config w)
                                                 (rendered_prompt d))) with
  | [] => []
  | verdict => if stdout_encodes w verdict then verdict ++ [NL] else []
  end.
Proof.
  intros Hi Hp. unfold stdout. rewrite (run_object Hi Hp). cbv zeta.
  unfold startup_events, stdout_of.
  destruct (verdict_of _) as [|c v]; [reflexivity|].
  destruct (stdout_encodes w (c :: v)); [|reflexivity].
  simpl. now rewrite app_nil_r.
Qed.
End Runs.

(* ================================================================== *)
(** * The reference runtime at work *)

Example loads_rejects_empty_text :
  Reference.loads [] = Raises JSONDecodeError.
Proof. reflexivity. Qed.

Example loads_rejects_plain_text :
  Reference.loads (u "not json") = Raises JSONDecodeError.
Proof. vm_compute. reflexivity. Qed.

Example loads_accepts_values_of_every_kind :
  Reference.loads (json_text " [1, -0.5e3, 'a\u00e9', true, null, {'k': []}] ")
  = Returns (PyList [ PyInt 1; PyFloat (FDec true 5 2);
                      PyStr [97; 233]%N; PyBool true; PyNone;
                      PyDict [(u "k", PyList [])] ]).
Proof. vm_compute. reflexivity. Qed.

Example loads_keeps_the_last_of_two_equal_keys :
  Reference.loads (json_text "{'a': 1, 'b': 2, 'a': 3}")
  = Returns (PyDict [(u "a", PyInt 3); (u "b", PyInt 2)]).
Proof. vm_compute. reflexivity. Qed.

Example loads_rejects_a_trailing_comma :
  Reference.loads (u "[1,]") = Raises JSONDecodeError.
Proof. vm_compute. reflexivity. Qed.

Example str_of_a_dict :
  Reference.str_of
    (PyDict [ (u "plex", PyDict [(u "active", PyBool false)]);
              (u "load", PyFloat (FDec false 42 (-2)));
              (u "note", PyStr (u "it's")) ])
  = u "{'plex': {'active': False}, 'load': 0.42, 'note': " ++ quoted (u "it's")
      ++ u "}".
Proof. vm_compute. reflexivity. Qed.

(** The prompt for [{}], as the script sends it. *)
Example prompt_for_empty_metrics :
  build_prompt (RT := Reference.runtime) (PyDict [])
  = ret (join_lines
           [ u "You are the CustomOS Guardian, a concise monitoring assistant.";
             [];
             u "Your job:";
             u "  - Look at CPU, memory, and service status.";
             u "  - Respond with ONE or two short sentences.";
             u "  - If everything looks fine, say "
               ++ quoted (u "All systems green.");
             u "  - If any problem is detected, mention it explicitly";
             u "    (e.g., " ++ quoted (u "Issue detected in Plex service")
               ++ u ").";
             [];
             u "Data (JSON):";
             u "CPU load: {}";
             u "Memory: {}";
             u "Services: {}";
             [];
             u "Respond with a short human-friendly verdict only, no JSON, no extra explanation." ]).
Proof. vm_compute. reflexivity. Qed.

(** A value that is a string with a line of its own defeats the common
    margin: [dedent] removes nothing, and only [strip] trims the ends. *)
Example prompt_with_a_multiline_value :
  exists rest,
    build_prompt (RT := Reference.runtime)
                 (PyDict [(u "cpu_load", PyStr (u "high" ++ [NL] ++ u "now"))])
    = ret (u "You are the CustomOS Guardian, a concise monitoring assistant."
             ++ [NL; NL] ++ u "        Your job:" ++ rest).
Proof. eexists. vm_compute. reflexivity. Qed.

(** A whole run: metrics on standard input, the endpoint answers. *)
Example run_on_sample_metrics :
  let w :=
    mocked (json_text "{'cpu_load': {'load1': 0.42}, 'services': {'plex': {'active': false}}}")
           (ok_with (json_text "{'response': ' Issue detected in Plex service (inactive).\n'}")) in
  stdout (RT := Reference.runtime) w
    = u "Issue detected in Plex service (inactive)." ++ [NL]
  /\ exit_status (run (RT := Reference.runtime) w) = 0%Z
  /\ str_in (u "CPU load: {'load1': 0.42}")
            (rendered_prompt (RT := Reference.runtime)
               [ (u "cpu_load", PyDict [(u "load1", PyFloat (FDec false 42 (-2)))]);
                 (u "services",
                  PyDict [(u "plex", PyDict [(u "active", PyBool false)])]) ])
     = true.
Proof. vm_compute. repeat split. Qed.

(* ================================================================== *)
(** * The exit status *)

(** C1: the exit status is not 0 on every defined path.  When [requests]
    cannot be imported the run does end at once, before any I/O, with exit
    status 0.  But with [requests] installed two paths end with exit status
    1 and a traceback, nothing being printed: malformed input that decodes
    to something that is not an object ([build_prompt] raises
    [AttributeError]), and a successful inference whose verdict standard
    output cannot encode ([print] raises [UnicodeEncodeError]).  Neither
    call stands in a [try]. *)
Theorem defined_paths_that_end_in_a_traceback {RT : Runtime} (w : World) :
  (import_requests w <> None ->
   run w = {| trace := []; exit_status := 0; traceback := None |})
  /\ (forall v,
         import_requests w = None ->
         parsed_stdin w = Returns v ->
         (forall d, v <> PyDict d) ->
         exit_status (run w) = 1%Z
         /\ traceback (run w) = Some AttributeError
         /\ stdout w = [])
  /\ (forall d verdict,
         import_requests w = None ->
         parsed_stdin w = Returns (PyDict d) ->
         snd (call_ollama w (startup_config w) (rendered_prompt d))
           = Return verdict ->
         verdict <> [] ->
         stdout_encodes w verdict = false ->
         exit_status (run w) = 1%Z
         /\ traceback (run w) = Some UnicodeEncodeError
         /\ stdout w = []).
Proof.
  split; [|split].
  - intros Hi. destruct (import_requests w) as [e|] eqn:He.
    + exact (run_without_requests w He).
    + now destruct Hi.
  - intros v Hi Hp Hv. unfold stdout. rewrite (run_not_object w Hi Hp Hv).
    split; [reflexivity|]. split; reflexivity.
  - intros d verdict Hi Hp Hc Hne Henc.
    rewrite call_ollama_eq in Hc. cbn [snd] in Hc. injection Hc as Hc.
    unfold stdout. rewrite (run_object w Hi Hp). cbv zeta. rewrite Hc.
    destruct verdict as [|c v]; [contradiction|]. rewrite Henc.
    split; [reflexivity|]. split; reflexivity.
Qed.

Lemma defined_paths_that_end_in_a_traceback_witness :
  let green := ok_with (json_text "{'response': 'All systems green.'}") in
  let lone := mocked (u "{}") (ok_with (json_text "{'response': '\ud800'}")) in
  let umlaut :=
    with_stdout
      (mocked (u "{}") (ok_with (json_text "{'response': 'Plex l\u00e4uft.'}")))
      ascii_encodes in
  run (RT := Reference.runtime) (without_requests (mocked (u "{}") green))
  = {| trace := []; exit_status := 0; traceback := None |}
  /\ (exit_status (run (RT := Reference.runtime) (mocked (u "42") green)) = 1%Z
      /\ traceback (run (RT := Reference.runtime) (mocked (u "42") green))
         = Some AttributeError
      /\ stdout (RT := Reference.runtime) (mocked (u "42") green) = [])
  /\ (exit_status (run (RT := Reference.runtime) lone) = 1%Z
      /\ traceback (run (RT := Reference.runtime) lone)
         = Some UnicodeEncodeError
      /\ stdout (RT := Reference.runtime) lone = [])
  /\ (exit_status (run (RT := Reference.runtime) umlaut) = 1%Z
      /\ traceback (run (RT := Reference.runtime) umlaut)
         = Some UnicodeEncodeError
      /\ stdout (RT := Reference.runtime) umlaut = []).
Proof.
  intros green lone umlaut. split; [|split; [|split]].
  - apply (proj1 (defined_paths_that_end_in_a_traceback
                    (RT := Reference.runtime)
                    (without_requests (mocked (u "{}") green)))).
    discriminate.
  - apply (proj1 (proj2 (defined_paths_that_end_in_a_traceback
                           (RT := Reference.runtime) (mocked (u "42") green)))
                 (PyInt 42) eq_refl);
      [vm_compute; reflexivity | discriminate].
  - apply (proj2 (proj2 (defined_paths_that_end_in_a_traceback
                           (RT := Reference.runtime) lone))
                 [] [55296%N] eq_refl);
      [vm_compute; reflexivity | vm_compute; reflexivity | discriminate
       | reflexivity].
  - apply (proj2 (proj2 (defined_paths_that_end_in_a_traceback
                           (RT := Reference.runtime) umlaut))
                 [] (u "Plex l" ++ [228%N] ++ u "uft.") eq_refl);
      [vm_compute; reflexivity | vm_compute; reflexivity | discriminate
       | vm_compute; reflexivity].
Defined.

(** C2: with [[]] on standard input (valid JSON, not an object) the decoder
    returns a list, [build_prompt] calls [.get] on it, and the
    [AttributeError] reaches the top: the run ends with exit status 1 and a
    traceback, where the fail-silent contract asks for exit status 0.  The
    same holds for a number, a string, a boolean and [null]. *)
Theorem array_on_stdin_ends_in_traceback :
  let green := ok_with (json_text "{'response': 'All systems green.'}") in
  parsed_stdin (RT := Reference.runtime) (mocked (u "[]") green)
    = Returns (PyList [])
  /\ Forall
       (fun input =>
          run (RT := Reference.runtime) (mocked input green)
          = {| trace := startup_events ++ [StdinRead];
               exit_status := 1;
               traceback := Some AttributeError |})
       [u "[]"; u "[1, 2]"; u "5"; u "0.5"; json_text "'text'"; u "true";
        u "null"].
Proof.
  intros green. split; [vm_compute; reflexivity|].
  repeat apply Forall_cons; try apply Forall_nil.
  all: match goal with
       | |- run (mocked ?input _) = _ =>
           let v := eval vm_compute in
                 (parsed_stdin (RT := Reference.runtime) (mocked input green)) in
           match v with
           | Returns ?x =>
               apply (@run_not_object Reference.runtime
                        (mocked input green) x eq_refl);
               [vm_compute; reflexivity | discriminate]
           end
       end.
Qed.

(* ================================================================== *)
(** * The inference caller *)

(** C3: [call_ollama] never raises.  After its one request it returns a
    string whatever the HTTP layer does, and that string is empty whenever
    the body of its [try] raises an exception: when the request itself
    raises (connection refused, timeout, anything else), when the status is
    4xx or 5xx, when the response body is not JSON, and when the body is
    JSON but no object. *)
Theorem call_ollama_never_raises {RT : Runtime} (w : World) (cfg : Config)
    (prompt : str) :
  (exists verdict,
      call_ollama w cfg prompt
      = ([HttpPost (generate_request cfg prompt)], Return verdict))
  /\ (forall e,
         snd (call_ollama_try w cfg prompt) = Raise (Exc e) ->
         snd (call_ollama w cfg prompt) = Return [])
  /\ (forall e,
         endpoint w (generate_request cfg prompt) = Raises e ->
         snd (call_ollama_try w cfg prompt) = Raise (Exc e)
         /\ snd (call_ollama w cfg prompt) = Return [])
  /\ (forall resp,
         endpoint w (generate_request cfg prompt) = Returns resp ->
         status_ok resp = false ->
         snd (call_ollama_try w cfg prompt) = Raise (Exc HTTPError)
         /\ snd (call_ollama w cfg prompt) = Return [])
  /\ (forall resp e,
         endpoint w (generate_request cfg prompt) = Returns resp ->
         status_ok resp = true ->
         json_loads (text resp) = Raises e ->
         snd (call_ollama_try w cfg prompt) = Raise (Exc e)
         /\ snd (call_ollama w cfg prompt) = Return [])
  /\ (forall resp v,
         endpoint w (generate_request cfg prompt) = Returns resp ->
         status_ok resp = true ->
         json_loads (text resp) = Returns v ->
         (forall data, v <> PyDict data) ->
         snd (call_ollama_try w cfg prompt) = Raise (Exc AttributeError)
         /\ snd (call_ollama w cfg prompt) = Return []).
Proof.
  split; [eexists; apply call_ollama_eq|].
  assert (Hcaught : forall e,
             snd (call_ollama_try w cfg prompt) = Raise (Exc e) ->
             snd (call_ollama w cfg prompt) = Return []).
  { intros e. unfold call_ollama, try_except.
    destruct (call_ollama_try w cfg prompt) as [tr [v|[e'|code]]];
      simpl; intros H; [discriminate | reflexivity | discriminate]. }
  split; [exact Hcaught|].
  assert (Hboth : forall e,
             snd (call_ollama_try w cfg prompt) = Raise (Exc e) ->
             snd (call_ollama_try w cfg prompt) = Raise (Exc e)
             /\ snd (call_ollama w cfg prompt) = Return [])
    by (intros e H; split; [exact H | exact (Hcaught e H)]).
  split; [|split; [|split]].
  - intros e He. apply Hboth.
    unfold call_ollama_try, requests_post, emit, lift. now rewrite He.
  - intros resp He H. apply Hboth. apply negb_false_iff in H.
    unfold call_ollama_try, requests_post, emit, lift, raise_for_status.
    rewrite He. cbn [bind ret app]. now rewrite H.
  - intros resp e He H Hj. apply Hboth. apply negb_true_iff in H.
    unfold call_ollama_try, requests_post, emit, lift, raise_for_status,
      response_json.
    rewrite He. cbn [bind ret app]. rewrite H. cbn [bind ret app].
    now rewrite Hj.
  - intros resp v He H Hj Hv. apply Hboth. apply negb_true_iff in H.
    unfold call_ollama_try, requests_post, emit, lift, raise_for_status,
      response_json.
    rewrite He. cbn [bind ret app]. rewrite H. cbn [bind ret app].
    rewrite Hj.
    destruct v; try reflexivity. now destruct (Hv items).
Qed.

(** The refused connection, the timeout, the status 500 and the body that
    is not JSON, each ending in the empty string. *)
Lemma call_ollama_never_raises_witness :
  let cfg := startup_config (mocked [] (Raises ConnectionError)) in
  snd (call_ollama (RT := Reference.runtime)
                   (mocked [] (Raises ConnectionError)) cfg (u "prompt"))
    = Return []
  /\ snd (call_ollama (RT := Reference.runtime)
                      (mocked [] (Raises ReadTimeout)) cfg (u "prompt"))
     = Return []
  /\ snd (call_ollama (RT := Reference.runtime)
            (mocked [] (Returns {| status_code := 500; text := u "{}" |}))
            cfg (u "prompt"))
     = Return []
  /\ snd (call_ollama (RT := Reference.runtime)
            (mocked [] (ok_with (u "<html>"))) cfg (u "prompt"))
     = Return [].
Proof.
  intros cfg.
  split; [|split; [|split]].
  - destruct (call_ollama_never_raises (RT := Reference.runtime)
                (mocked [] (Raises ConnectionError)) cfg (u "prompt"))
      as (_ & _ & Hrequest & _).
    exact (proj2 (Hrequest _ eq_refl)).
  - destruct (call_ollama_never_raises (RT := Reference.runtime)
                (mocked [] (Raises ReadTimeout)) cfg (u "prompt"))
      as (_ & _ & Hrequest & _).
    exact (proj2 (Hrequest _ eq_refl)).
  - destruct (call_ollama_never_raises (RT := Reference.runtime)
                (mocked [] (Returns {| status_code := 500; text := u "{}" |}))
                cfg (u "prompt"))
      as (_ & _ & _ & Hstatus & _).
    exact (proj2 (Hstatus _ eq_refl eq_refl)).
  - destruct (call_ollama_never_raises (RT := Reference.runtime)
                (mocked [] (ok_with (u "<html>"))) cfg (u "prompt"))
      as (_ & _ & _ & _ & Hbody & _).
    refine (proj2 (Hbody _ JSONDecodeError eq_refl eq_refl _)).
    vm_compute. reflexivity.
Defined.

(* ================================================================== *)
(** * The prompt builder *)

Section Prompt.
Context {RT : Runtime}.

Lemma rendered_prompt_eq (d : list (str * value)) :
  let field k :=
    match dict_get d (u k) with Some v => v | None => PyDict [] end in
  rendered_prompt d =
  strip (dedent (prompt_template (py_str (field "cpu_load"%string))
                                 (py_str (field "memory"%string))
                                 (py_str (field "services"%string)))).
Proof. reflexivity. Qed.


End Prompt.



(* ================================================================== *)
(** * The verdict *)

Section Verdict.
Context {RT : Runtime}.

Lemma verdict_of_object (resp : Response) (data : list (str * value)) :
  status_ok resp = true ->
  json_loads (text resp) = Returns (PyDict data) ->
  verdict_of (Returns resp) = text_or_empty (chosen_text data).
Proof. intros Hs Hd. unfold verdict_of. now rewrite Hs, Hd. Qed.

Lemma falsy_text_or_empty (v : value) :
  truthy v = false -> text_or_empty v = [].
Proof.
  destruct v as [| | | |[|c s]| |]; simpl; intros H;
    try reflexivity; discriminate.
Qed.


(** The verdict of a successful answer, by the two keys. *)
Lemma chosen_text_cases (data : list (str * value)) :
  (forall r, dict_get data (u "response") = Some r -> truthy r = true ->
             text_or_empty (chosen_text data) = text_or_empty r)
  /\ (forall r t, dict_get data (u "response") = Some r ->
                  truthy r = false ->
                  dict_get data (u "text") = Some t ->
                  text_or_empty (chosen_text data) = text_or_empty t)
  /\ (forall r, dict_get data (u "response") = Some r ->
                truthy r = false ->
                dict_get data (u "text") = None ->
                text_or_empty (chosen_text data) = [])
  /\ (forall t, dict_get data (u "response") = None ->
                dict_get data (u "text") = Some t ->
                text_or_empty (chosen_text data) = text_or_empty t)
  /\ (dict_get data (u "response") = None ->
      dict_get data (u "text") = None ->
      text_or_empty (chosen_text data) = []).
Proof.
  unfold chosen_text. repeat split.
  - intros r -> Hr. now rewrite Hr.
  - intros r t -> Hr ->. rewrite Hr.
    destruct (truthy t) eqn:Ht; [reflexivity|].
    now rewrite (@falsy_text_or_empty t Ht).
  - intros r -> Hr ->. now rewrite Hr.
  - intros t -> ->. simpl.
    destruct (truthy t) eqn:Ht; [reflexivity|].
    now rewrite (@falsy_text_or_empty t Ht).
  - now intros -> ->.
Qed.
End Verdict.




(** A verdict of two lines is printed as two lines. *)
Example two_line_verdict_is_printed_on_two_lines :
  split_lines
    (stdout (RT := Reference.runtime)
            (mocked [] (ok_with (json_text "{'response': 'Plex is down.\nDisk is full.'}"))))
  = [u "Plex is down."; u "Disk is full."; []].
Proof. vm_compute. reflexivity. Qed.

(** C6, as stated, fails: with both keys present and the empty string under
    ["response"], the value under ["text"] is returned. *)
Lemma response_used_whenever_present_fails : ~ response_used_whenever_present.
Proof.
  intros H.
  specialize (H Reference.runtime
                (mocked [] (ok_with (json_text "{'response': '', 'text': 'hello'}")))
                (startup_config (mocked [] (Raises ConnectionError)))
                (u "prompt")
                {| status_code := 200;
                   text := json_text "{'response': '', 'text': 'hello'}" |}
                [(u "response", PyStr []); (u "text", PyStr (u "hello"))]
                (PyStr []) (PyStr (u "hello"))
                eq_refl eq_refl eq_refl eq_refl eq_refl).
  vm_compute in H. discriminate H.
Qed.

(** C6, amended: the text of a successful JSON response is taken from
    ["response"] and then from ["text"], in this order, the first value that
    is true being used: a true value under ["response"] decides the verdict
    whatever ["text"] holds; behind a false or absent ["response"] the value
    under ["text"] decides it; and when neither key is present [call_ollama]
    returns the empty string and the run prints nothing. *)
Theorem text_field_priority {RT : Runtime} (w : World)
    (d : list (str * value)) (resp : Response) (data : list (str * value)) :
  import_requests w = None ->
  parsed_stdin w = Returns (PyDict d) ->
  endpoint w (generate_request (startup_config w) (rendered_prompt d))
    = Returns resp ->
  status_ok resp = true ->
  json_loads (text resp) = Returns (PyDict data) ->
  let verdict := snd (call_ollama w (startup_config w) (rendered_prompt d)) in
  (forall r, dict_get data (u "response") = Some r -> truthy r = true ->
             verdict = Return (text_or_empty r))
  /\ (forall r t, dict_get data (u "response") = Some r -> truthy r = false ->
                  dict_get data (u "text") = Some t ->
                  verdict = Return (text_or_empty t))
  /\ (forall t, dict_get data (u "response") = None ->
                dict_get data (u "text") = Some t ->
                verdict = Return (text_or_empty t))
  /\ (dict_get data (u "response") = None ->
      dict_get data (u "text") = None ->
      verdict = Return [] /\ stdout w = []).
Proof.
  intros Hi Hp He Hok Hd verdict. subst verdict.
  rewrite call_ollama_eq. cbn [snd].
  rewrite (stdout_object w Hi Hp), He, (verdict_of_object _ Hok Hd).
  destruct (chosen_text_cases data) as (H1 & H2 & _ & H4 & H5).
  split; [intros r Hr Ht; now rewrite (H1 r Hr Ht)|].
  split; [intros r t Hr Hf Ht; now rewrite (H2 r t Hr Hf Ht)|].
  split; [intros t Hr Ht; now rewrite (H4 t Hr Ht)|].
  intros Hr Ht. now rewrite (H5 Hr Ht).
Qed.

Lemma text_field_priority_witness :
  snd (call_ollama (RT := Reference.runtime)
         (mocked [] (ok_with (json_text "{'response': 'ok', 'text': 'hello'}")))
         (startup_config (mocked [] (Raises ConnectionError)))
         (rendered_prompt (RT := Reference.runtime) []))
    = Return (u "ok")
  /\ stdout (RT := Reference.runtime)
            (mocked [] (ok_with (json_text "{'verdict': 'hello'}")))
     = [].
Proof.
  split.
  - refine (proj1
      (text_field_priority (RT := Reference.runtime)
         (mocked [] (ok_with (json_text "{'response': 'ok', 'text': 'hello'}")))
         (d := [])
         (data := [(u "response", PyStr (u "ok")); (u "text", PyStr (u "hello"))])
         eq_refl _ eq_refl eq_refl _) (PyStr (u "ok")) eq_refl eq_refl);
      vm_compute; reflexivity.
  - refine (proj2 (proj2 (proj2 (proj2
      (text_field_priority (RT := Reference.runtime)
         (mocked [] (ok_with (json_text "{'verdict': 'hello'}")))
         (d := []) (data := [(u "verdict", PyStr (u "hello"))])
         eq_refl _ eq_refl eq_refl _))) eq_refl eq_refl));
      vm_compute; reflexivity.
Defined.

(* ================================================================== *)
(** * Standard input *)

(** C7, as stated, fails: the empty input is not valid JSON and
    [json.loads] rejects it, yet the run goes on as for [{}] and prints the
    verdict. *)
Lemma rejected_input_is_silent_fails : ~ rejected_input_is_silent.
Proof.
  intros H.
  destruct (H Reference.runtime
              (mocked [] (ok_with (json_text "{'response': 'All systems green.'}")))
              [] JSONDecodeError eq_refl eq_refl eq_refl) as [Hout _].
  vm_compute in Hout. discriminate Hout.
Qed.

(** C7, amended: for every non-empty input that [json.loads] rejects, such
    as [not json], the run prints nothing, posts nothing and ends with exit
    status 0 and no traceback; with [requests] installed it ends right
    after reading the input.  What [json.loads] accepts beyond JSON ([NaN],
    [Infinity], [-Infinity]) is not rejected and goes the way of any decoded
    value. *)
Theorem invalid_json_exits_silently {RT : Runtime} (w : World) (raw : str)
    (e : exception) :
  stdin w = Returns raw ->
  raw <> [] ->
  json_loads raw = Raises e ->
  stdout w = []
  /\ exit_status (run w) = 0%Z
  /\ traceback (run w) = None
  /\ posts_of (trace (run w)) = []
  /\ (import_requests w = None ->
      run w = {| trace := startup_events ++ [StdinRead];
                 exit_status := 0;
                 traceback := None |}).
Proof.
  intros Hs Hne He.
  assert (Hp : parsed_stdin w = Raises e).
  { unfold parsed_stdin. rewrite Hs. destruct raw; [contradiction | exact He]. }
  unfold stdout. destruct (import_requests w) as [e0|] eqn:Hi.
  - rewrite (run_without_requests w Hi).
    split; [reflexivity|]. split; [reflexivity|]. split; [reflexivity|].
    split; [reflexivity | discriminate].
  - rewrite (run_unreadable w Hi Hp).
    split; [reflexivity|]. split; [reflexivity|]. split; [reflexivity|].
    split; reflexivity.
Qed.

Lemma invalid_json_exits_silently_witness :
  let w := mocked (u "not json")
                  (ok_with (json_text "{'response': 'All systems green.'}")) in
  run (RT := Reference.runtime) w
    = {| trace := startup_events ++ [StdinRead];
         exit_status := 0;
         traceback := None |}
  /\ stdout (RT := Reference.runtime) w = [].
Proof.
  intros w.
  refine (let H := invalid_json_exits_silently (RT := Reference.runtime) w
                     (raw := u "not json") (e := JSONDecodeError)
                     eq_refl _ _ in
          conj (proj2 (proj2 (proj2 (proj2 H))) eq_refl) (proj1 H)).
  - vm_compute. discriminate.
  - vm_compute. reflexivity.
Defined.

(** [json.loads] takes [NaN] for a number: as a metric it is rendered and
    posted like any other, and alone on standard input it is a value that is
    not an object. *)
Example nan_on_stdin_is_decoded :
  let green := ok_with (json_text "{'response': 'All systems green.'}") in
  stdout (RT := Reference.runtime)
         (mocked (json_text "{'cpu_load': NaN}") green)
    = u "All systems green." ++ [NL]
  /\ str_in (u "CPU load: nan")
            (rendered_prompt (RT := Reference.runtime)
               [(u "cpu_load", PyFloat FNaN)])
     = true
  /\ traceback (run (RT := Reference.runtime) (mocked (u "NaN") green))
     = Some AttributeError.
Proof. vm_compute. split; [reflexivity|]. split; reflexivity. Qed.

(** C8: empty standard input and the input [{}] give the same run: the same
    events, hence the same output and the same request, and the same exit
    status, whatever the environment and the endpoint do. *)
Theorem empty_stdin_is_empty_object {RT : Runtime} (w : World) :
  run (with_stdin w []) = run (with_stdin w (u "{}")).
Proof.
  rewrite !run_eq, !main_eq. reflexivity.
Qed.

(* ================================================================== *)
(** * The request *)

(** C9: a call of [call_ollama] posts exactly once, to the configured URL,
    the JSON object with the configured model, the prompt it was given and
    [stream] false, with a timeout of 15 seconds.  In a run, the two
    variables are read first and never again; the URL and the model of a
    request are those of the environment or, when unset,
    [http://localhost:11434/api/generate] and [llama3]; at most one request
    is posted; and when standard input holds an object exactly one is, with
    the prompt built from that object. *)
Theorem single_post_with_configuration {RT : Runtime} (w : World) :
  (forall cfg prompt,
      fst (call_ollama w cfg prompt)
      = [HttpPost {| url := OLLAMA_API_URL cfg;
                     json := PyDict [ (u "model", PyStr (OLLAMA_MODEL cfg));
                                      (u "prompt", PyStr prompt);
                                      (u "stream", PyBool false) ];
                     timeout := 15 |}])
  /\ (import_requests w = None ->
      exists rest,
        trace (run w)
        = EnvGet (u "OLLAMA_API_URL") :: EnvGet (u "OLLAMA_MODEL") :: rest
        /\ env_reads_of rest = []
        /\ (List.length (posts_of rest) <= 1)%nat
        /\ forall req, In req (posts_of rest) ->
             url req
             = match dict_get (environ w) (u "OLLAMA_API_URL") with
               | Some v => v
               | None => u "http://localhost:11434/api/generate"
               end
             /\ timeout req = 15%Z
             /\ exists prompt,
                 json req
                 = PyDict [ (u "model",
                             PyStr match dict_get (environ w) (u "OLLAMA_MODEL") with
                                   | Some v => v
                                   | None => u "llama3"
                                   end);
                            (u "prompt", PyStr prompt);
                            (u "stream", PyBool false) ])
  /\ (forall d prompt,
         import_requests w = None ->
         parsed_stdin w = Returns (PyDict d) ->
         build_prompt (PyDict d) = ([], Return prompt) ->
         posts_of (trace (run w))
         = [generate_request (startup_config w) prompt]).
Proof.
  split; [intros cfg prompt; now rewrite call_ollama_eq|].
  split.
  - intros Hi. rewrite run_eq, Hi, main_eq.
    destruct (parsed_stdin w) as [v|e].
    + destruct v as [| | | | | |d];
        try (exists [StdinRead]; split; [reflexivity|];
             split; [reflexivity|]; split; [simpl; lia|]; intros req []).
      cbv zeta.
      set (req := generate_request (startup_config w) (rendered_prompt d)).
      destruct (verdict_of (endpoint w req)) as [|c v];
        [|destruct (stdout_encodes w (c :: v))];
        eexists; (split; [reflexivity|]); simpl;
        (split; [reflexivity|]; split; [lia|]; intros r [<- | []];
         split; [reflexivity | split; [reflexivity | now eexists]]).
    + exists [StdinRead]. split; [reflexivity|].
      split; [reflexivity|]. split; [simpl; lia|]. intros req [].
  - intros d prompt Hi Hp Hb.
    rewrite build_prompt_dict in Hb. injection Hb as <-.
    rewrite (run_object w Hi Hp). cbv zeta.
    destruct (verdict_of _) as [|c v]; [reflexivity|].
    destruct (stdout_encodes w (c :: v)); reflexivity.
Qed.

Lemma single_post_with_configuration_witness :
  let w := mocked (u "{}") (Raises ConnectionError) in
  posts_of (trace (run (RT := Reference.runtime) w))
  = [ {| url := u "http://localhost:11434/api/generate";
         json := PyDict [ (u "model", PyStr (u "llama3"));
                          (u "prompt",
                           PyStr (rendered_prompt (RT := Reference.runtime) []));
                          (u "stream", PyBool false) ];
         timeout := 15 |} ].
Proof.
  intros w.
  refine (proj2 (proj2
            (single_post_with_configuration (RT := Reference.runtime) w))
            [] _ eq_refl _ eq_refl).
  vm_compute. reflexivity.
Defined.

(* ================================================================== *)
(** * Falling back on a false value *)

(** C10, as stated, fails: behind an empty ["response"], a ["text"] of one
    space is a non-empty string, and nothing is printed. *)
Lemma fallback_text_is_printed_fails : ~ fallback_text_is_printed.
Proof.
  intros H.
  destruct (H Reference.runtime
              (mocked [] (ok_with (json_text "{'response': '', 'text': ' '}")))
              []
              {| status_code := 200;
                 text := json_text "{'response': '', 'text': ' '}" |}
              [(u "response", PyStr []); (u "text", PyStr (u " "))]
              (PyStr []) (u " ")
              eq_refl eq_refl eq_refl eq_refl eq_refl eq_refl eq_refl eq_refl)
    as [_ Hout].
  - vm_compute. discriminate.
  - vm_compute in Hout. discriminate Hout.
Qed.

(** C10, amended: extraction falls back on falsiness, not merely absence.
    When ["response"] holds a false value (the empty string, [null], [0],
    ...) and ["text"] holds a non-empty string [s], [call_ollama] returns
    [s.strip()], and the run prints it when it is not empty and standard
    output can encode it; it prints nothing when [s] is all whitespace, and
    nothing when standard output cannot encode the stripped text. *)
Theorem falsy_response_falls_back {RT : Runtime} (w : World)
    (d : list (str * value)) (resp : Response) (data : list (str * value))
    (r : value) (s : str) :
  import_requests w = None ->
  parsed_stdin w = Returns (PyDict d) ->
  endpoint w (generate_request (startup_config w) (rendered_prompt d))
    = Returns resp ->
  status_ok resp = true ->
  json_loads (text resp) = Returns (PyDict data) ->
  dict_get data (u "response") = Some r ->
  truthy r = false ->
  dict_get data (u "text") = Some (PyStr s) ->
  s <> [] ->
  snd (call_ollama w (startup_config w) (rendered_prompt d))
    = Return (strip s)
  /\ (strip s <> [] -> stdout_encodes w (strip s) = true ->
      stdout w = strip s ++ [NL])
  /\ (strip s = [] -> stdout w = [])
  /\ (stdout_encodes w (strip s) = false -> stdout w = []).
Proof.
  intros Hi Hp He Hok Hd Hr Hf Ht Hs.
  rewrite call_ollama_eq. cbn [snd].
  rewrite (stdout_object w Hi Hp), He, (verdict_of_object _ Hok Hd).
  destruct (chosen_text_cases data) as (_ & H2 & _).
  rewrite (H2 r (PyStr s) Hr Hf Ht). cbn [text_or_empty].
  split; [reflexivity|].
  destruct (strip s) as [|c t].
  - split; [intros H; now destruct H|]. split; reflexivity.
  - split; [intros _ Henc; now rewrite Henc|].
    split; [discriminate|]. intros Henc. now rewrite Henc.
Qed.

Lemma falsy_response_falls_back_witness :
  stdout (RT := Reference.runtime)
         (mocked [] (ok_with (json_text "{'response': '', 'text': ' fine '}")))
    = u "fine" ++ [NL].
Proof.
  refine (proj1 (proj2
    (falsy_response_falls_back (RT := Reference.runtime)
       (mocked [] (ok_with (json_text "{'response': '', 'text': ' fine '}")))
       (d := [])
       (data := [(u "response", PyStr []); (u "text", PyStr (u " fine "))])
       (r := PyStr []) (s := u " fine ")
       eq_refl _ eq_refl eq_refl _ eq_refl eq_refl eq_refl _)) _ _);
    try (vm_compute; reflexivity); vm_compute; discriminate.
Defined.

(* ================================================================== *)
(** * Beyond the claims: the shape of every run *)

Section Shape.
Context {RT : Runtime}.

End Shape.



(* ================================================================== *)
(** * Beyond the claims: what a run depends on *)

(** X3: a run depends on the HTTP layer only through what [call_ollama]
    returns.  Two machines that differ in nothing but the HTTP layer, and on
    which [call_ollama] returns the same string for every request, give the
    same run: a refused connection, a status 500 and an answer without text
    cannot be told apart by the caller. *)
Theorem run_depends_on_the_verdict_only {RT : Runtime} (w : World)
    (other : Request -> outcome Response) :
  (forall cfg prompt,
      snd (call_ollama w cfg prompt)
      = snd (call_ollama (with_endpoint w other) cfg prompt)) ->
  run w = run (with_endpoint w other).
Proof.
  intros Hsame. rewrite !run_eq, !main_eq.
  change (import_requests (with_endpoint w other)) with (import_requests w).
  change (parsed_stdin (with_endpoint w other)) with (parsed_stdin w).
  change (startup_config (with_endpoint w other)) with (startup_config w).
  destruct (import_requests w); [reflexivity|].
  change (stdout_encodes (with_endpoint w other)) with (stdout_encodes w).
  destruct (parsed_stdin w) as [[| | | | | |d]|e]; try reflexivity.
  cbv zeta.
  specialize (Hsame (startup_config w) (rendered_prompt d)).
  rewrite !call_ollama_eq in Hsame. cbn [snd] in Hsame.
  injection Hsame as Hsame. now rewrite Hsame.
Qed.

Lemma run_depends_on_the_verdict_only_witness :
  let w := mocked (u "{}") (Raises ConnectionError) in
  run (RT := Reference.runtime) w
  = run (RT := Reference.runtime)
        (with_endpoint w
           (fun _ => Returns {| status_code := 500; text := u "oops" |}))
  /\ run (RT := Reference.runtime) w
     = run (RT := Reference.runtime)
           (with_endpoint w (fun _ => ok_with (json_text "{'response': ''}"))).
Proof.
  intros w. split.
  - apply (run_depends_on_the_verdict_only (RT := Reference.runtime) w).
    intros cfg prompt. rewrite !call_ollama_eq. reflexivity.
  - apply (run_depends_on_the_verdict_only (RT := Reference.runtime) w).
    intros cfg prompt. rewrite !call_ollama_eq. vm_compute. reflexivity.
Defined.

(** X4: the script does not ask for status 200.  A response with any status
    below 400 or from 600 on is handled as a success: [call_ollama] returns
    what it returns for the same body under status 200. *)
Theorem any_status_outside_4xx_5xx_counts_as_success {RT : Runtime} (w : World)
    (cfg : Config) (prompt : str) (resp : Response) :
  endpoint w (generate_request cfg prompt) = Returns resp ->
  (status_code resp < 400 \/ 600 <= status_code resp)%Z ->
  call_ollama w cfg prompt
  = call_ollama
      (with_endpoint w
         (fun _ => Returns {| status_code := 200; text := text resp |}))
      cfg prompt.
Proof.
  intros He Hcode. rewrite !call_ollama_eq.
  change (endpoint (with_endpoint w _) _)
    with (Returns {| status_code := 200; text := text resp |}).
  rewrite He. unfold verdict_of, status_ok. cbn [status_code text].
  replace ((400 <=? status_code resp) && (status_code resp <? 600))%Z
    with false; [reflexivity|].
  symmetry. apply andb_false_iff.
  destruct Hcode; [left; apply Z.leb_gt | right; apply Z.ltb_ge]; lia.
Qed.

Lemma any_status_outside_4xx_5xx_counts_as_success_witness :
  let body := json_text "{'response': 'All systems green.'}" in
  let w := mocked [] (Returns {| status_code := 302; text := body |}) in
  snd (call_ollama (RT := Reference.runtime) w (startup_config w) (u "prompt"))
  = Return (u "All systems green.").
Proof.
  intros body w.
  rewrite (any_status_outside_4xx_5xx_counts_as_success
             (RT := Reference.runtime) w (startup_config w) (u "prompt")
             (resp := {| status_code := 302; text := body |}) eq_refl);
    [vm_compute; reflexivity | left; vm_compute; reflexivity].
Defined.

(** X5: a true value under ["response"] that yields no text silences the
    run, whatever ["text"] holds: when it is not a string (a number, [true],
    a list, an object) [.strip()] raises and the handler returns the empty
    string; when it is a string of whitespace only, its strip is empty.
    Neither falls back on ["text"], and nothing is printed. *)
Theorem unusable_response_blocks_the_fallback {RT : Runtime} (w : World)
    (d : list (str * value)) (resp : Response) (data : list (str * value))
    (r : value) :
  import_requests w = None ->
  parsed_stdin w = Returns (PyDict d) ->
  endpoint w (generate_request (startup_config w) (rendered_prompt d))
    = Returns resp ->
  status_ok resp = true ->
  json_loads (text resp) = Returns (PyDict data) ->
  dict_get data (u "response") = Some r ->
  truthy r = true ->
  ((forall s, r <> PyStr s) \/ (exists s, r = PyStr s /\ strip s = [])) ->
  snd (call_ollama w (startup_config w) (rendered_prompt d)) = Return []
  /\ stdout w = [].
Proof.
  intros Hi Hp He Hok Hd Hr Ht Hno.
  assert (Hv : verdict_of (endpoint w (generate_request (startup_config w)
                                                        (rendered_prompt d)))
               = []).
  { rewrite He, (verdict_of_object _ Hok Hd).
    destruct (chosen_text_cases data) as (H & _). rewrite (H _ Hr Ht).
    destruct Hno as [Hns | (s & -> & Hs)]; [|exact Hs].
    destruct r; try reflexivity. now destruct (Hns s). }
  split; [now rewrite call_ollama_eq, Hv|].
  now rewrite (stdout_object w Hi Hp), Hv.
Qed.

Lemma unusable_response_blocks_the_fallback_witness :
  stdout (RT := Reference.runtime)
         (mocked [] (ok_with (json_text "{'response': 5, 'text': 'hello'}")))
    = []
  /\ stdout (RT := Reference.runtime)
            (mocked [] (ok_with (json_text "{'response': '  ', 'text': 'hello'}")))
     = [].
Proof.
  split.
  - refine (proj2
      (unusable_response_blocks_the_fallback (RT := Reference.runtime)
         (mocked [] (ok_with (json_text "{'response': 5, 'text': 'hello'}")))
         (d := [])
         (data := [(u "response", PyInt 5); (u "text", PyStr (u "hello"))])
         (r := PyInt 5)
         eq_refl _ eq_refl eq_refl _ eq_refl eq_refl _));
      [vm_compute; reflexivity | vm_compute; reflexivity
       | left; discriminate].
  - refine (proj2
      (unusable_response_blocks_the_fallback (RT := Reference.runtime)
         (mocked [] (ok_with (json_text "{'response': '  ', 'text': 'hello'}")))
         (d := [])
         (data := [(u "response", PyStr (u "  ")); (u "text", PyStr (u "hello"))])
         (r := PyStr (u "  "))
         eq_refl _ eq_refl eq_refl _ eq_refl eq_refl _));
      [vm_compute; reflexivity | vm_compute; reflexivity
       | right; exists (u "  "); split; reflexivity].
Defined.

(** X6: of the metrics, only the entries ["cpu_load"], ["memory"] and
    ["services"] matter.  Two inputs that decode to objects with the same
    three entries (each present with the same value, or absent, or absent on
    one side and the empty object on the other) give the same run, whatever
    else the objects hold and in whatever order. *)
Theorem only_three_metrics_matter {RT : Runtime} (w : World)
    (raw1 raw2 : str) (d1 d2 : list (str * value)) :
  json_loads (py_or_str raw1 (u "{}")) = Returns (PyDict d1) ->
  json_loads (py_or_str raw2 (u "{}")) = Returns (PyDict d2) ->
  metric d1 "cpu_load" = metric d2 "cpu_load" ->
  metric d1 "memory" = metric d2 "memory" ->
  metric d1 "services" = metric d2 "services" ->
  run (with_stdin w raw1) = run (with_stdin w raw2).
Proof.
  intros H1 H2 Hc Hm Hs. rewrite !run_eq, !main_eq.
  change (import_requests (with_stdin w raw1)) with (import_requests w).
  change (import_requests (with_stdin w raw2)) with (import_requests w).
  destruct (import_requests w); [reflexivity|].
  change (parsed_stdin (with_stdin w raw1))
    with (json_loads (py_or_str raw1 (u "{}"))).
  change (parsed_stdin (with_stdin w raw2))
    with (json_loads (py_or_str raw2 (u "{}"))).
  rewrite H1, H2.
  assert (E : rendered_prompt d1 = rendered_prompt d2).
  { rewrite !rendered_prompt_eq. cbv zeta. unfold metric in Hc, Hm, Hs.
    now rewrite Hc, Hm, Hs. }
  now rewrite E.
Qed.

Lemma only_three_metrics_matter_witness :
  let w := mocked [] (ok_with (json_text "{'response': 'All systems green.'}")) in
  run (RT := Reference.runtime)
      (with_stdin w (json_text "{'disk': 93, 'cpu_load': {'load1': 2}}"))
  = run (RT := Reference.runtime)
        (with_stdin w (json_text "{'cpu_load': {'load1': 2}, 'memory': {}}")).
Proof.
  intros w.
  refine (only_three_metrics_matter (RT := Reference.runtime) w _ _
            (d1 := [(u "disk", PyInt 93);
                    (u "cpu_load", PyDict [(u "load1", PyInt 2)])])
            (d2 := [(u "cpu_load", PyDict [(u "load1", PyInt 2)]);
                    (u "memory", PyDict [])])
            _ _ eq_refl eq_refl eq_refl);
    vm_compute; reflexivity.
Defined.

(* ================================================================== *)
(** * Beyond the claims: the prompt as text *)

(** ** Splitting and joining *)

Lemma split_on_app_sep (sep : N) (y z : str) :
  split_on sep (y ++ sep :: z) = split_on sep y ++ split_on sep z.
Proof.
  induction y as [|c y IH]; simpl.
  - now rewrite N.eqb_refl.
  - destruct (N.eqb c sep); [now rewrite IH|].
    rewrite IH. pose proof (split_on_not_nil sep y) as Hne.
    now destruct (split_on sep y).
Qed.

Lemma split_on_one (sep : N) (l : str) :
  forallb (fun c => negb (N.eqb c sep)) l = true -> split_on sep l = [l].
Proof.
  induction l as [|c l IH]; [reflexivity|]. simpl. intros H.
  apply andb_true_iff in H as [Hc Hl]. apply negb_true_iff in Hc.
  now rewrite Hc, (IH Hl).
Qed.

Lemma split_on_parts_clean (sep : N) (s : str) :
  Forall (fun l => forallb (fun c => negb (N.eqb c sep)) l = true)
         (split_on sep s).
Proof.
  induction s as [|c s IH]; simpl; [now repeat constructor|].
  destruct (N.eqb c sep) eqn:E; [now constructor|].
  pose proof (split_on_not_nil sep s) as Hne.
  destruct (split_on sep s) as [|l ls]; [contradiction|].
  inversion IH as [|? ? Hl Hls]; subst. constructor; [|exact Hls].
  simpl. now rewrite E, Hl.
Qed.

(** Splitting what was joined gives the parts back. *)
Lemma split_join (sep : N) (ls : list str) :
  ls <> [] ->
  Forall (fun l => forallb (fun c => negb (N.eqb c sep)) l = true) ls ->
  split_on sep (join_with sep ls) = ls.
Proof.
  induction ls as [|l ls IH]; [contradiction|]. intros _ Hall.
  inversion Hall as [|? ? Hl Hls]; subst.
  destruct ls as [|l' ls]; [now apply split_on_one|].
  change (join_with sep (l :: l' :: ls))
    with (l ++ sep :: join_with sep (l' :: ls)).
  rewrite split_on_app_sep, (split_on_one _ _ Hl), IH;
    [reflexivity | discriminate | exact Hls].
Qed.

Lemma join_with_last (sep : N) (ls : list str) (l : str) :
  ls <> [] -> join_with sep (ls ++ [l]) = join_with sep ls ++ sep :: l.
Proof.
  induction ls as [|l0 ls IH]; [contradiction|]. intros _.
  destruct ls as [|l1 ls]; [reflexivity|].
  change (join_with sep ((l0 :: l1 :: ls) ++ [l]))
    with (l0 ++ sep :: join_with sep ((l1 :: ls) ++ [l])).
  rewrite IH by discriminate.
  change (join_with sep (l0 :: l1 :: ls))
    with (l0 ++ sep :: join_with sep (l1 :: ls)).
  now rewrite <- app_assoc.
Qed.

(** ** Stripping *)

Lemma drop_while_app_stop (p : N -> bool) (x y : str) (c : N) (r : str) :
  drop_while p x = c :: r -> drop_while p (x ++ y) = (c :: r) ++ y.
Proof.
  induction x as [|a x IH]; simpl; [discriminate|].
  destruct (p a); [exact IH | now intros [= <- <-]].
Qed.

(** [rstrip] leaves alone what stands before a tail that does not vanish. *)
Lemma rstrip_app (a b : str) :
  rstrip b <> [] -> rstrip (a ++ b) = a ++ rstrip b.
Proof.
  unfold rstrip. intros Hb. rewrite rev_app_distr.
  destruct (drop_while isspace (rev b)) as [|c r] eqn:E; [now destruct Hb|].
  rewrite (drop_while_app_stop _ _ (rev a) E), rev_app_distr.
  now rewrite rev_involutive.
Qed.

Lemma lstrip_app (a b : str) : lstrip a <> [] -> lstrip (a ++ b) = lstrip a ++ b.
Proof.
  unfold lstrip. intros Ha.
  destruct (drop_while isspace a) as [|c r] eqn:E; [now destruct Ha|].
  apply (drop_while_app_stop _ _ b E).
Qed.

Lemma drop_while_all (p : N -> bool) (a b : str) :
  forallb p a = true -> drop_while p (a ++ b) = drop_while p b.
Proof.
  induction a as [|c a IH]; [reflexivity|]. simpl. intros H.
  apply andb_true_iff in H as [Hc Ha]. now rewrite Hc, (IH Ha).
Qed.

Lemma is_space_tab_isspace (c : N) : is_space_tab c = true -> isspace c = true.
Proof.
  unfold is_space_tab. intros H. apply orb_true_iff in H as [H | H];
    apply N.eqb_eq in H; subst; reflexivity.
Qed.

Lemma blank_is_space (pad : str) :
  forallb is_space_tab pad = true -> forallb isspace pad = true.
Proof.
  induction pad as [|c pad IH]; [reflexivity|]. simpl. intros H.
  apply andb_true_iff in H as [Hc Hp].
  now rewrite (is_space_tab_isspace _ Hc), (IH Hp).
Qed.

(** ** textwrap.dedent, line by line *)

Lemma not_whitespace_only (pad text : str) (c : N) :
  hd_error text = Some c -> is_space_tab c = false ->
  whitespace_only (pad ++ text) = false.
Proof.
  intros Hc Hb. destruct text as [|z text]; [discriminate|].
  injection Hc as ->. unfold whitespace_only.
  destruct (pad ++ c :: text) eqn:E; [reflexivity|]. rewrite <- E.
  rewrite forallb_app. simpl. rewrite Hb. now rewrite andb_false_r.
Qed.

(** A margin of spaces and tabs at the start of a line ends before the
    first other character. *)
Lemma margin_within_pad (margin pad text : str) (c : N) :
  forallb is_space_tab margin = true ->
  hd_error text = Some c -> is_space_tab c = false ->
  startswith (pad ++ text) margin = true ->
  exists pad', pad = margin ++ pad'.
Proof.
  intros Hm Hc Hb Hst. apply startswith_spec in Hst as [r Hr].
  revert pad Hr; induction margin as [|x margin IH]; intros pad Hr.
  - now exists pad.
  - simpl in Hm. apply andb_true_iff in Hm as [Hx Hm].
    destruct pad as [|y pad].
    + destruct text as [|z text]; [discriminate|]. injection Hc as ->.
      simpl in Hr. injection Hr as -> _. congruence.
    + simpl in Hr. injection Hr as -> Hr.
      destruct (IH Hm pad Hr) as [pad' ->]. now exists pad'.
Qed.

(** [dedent] rewrites each line on its own: an empty or blank line becomes
    empty, and a line with text keeps its text behind what is left of its
    leading spaces and tabs. *)
Lemma dedent_lines (s : str) :
  exists g : str -> str,
    dedent s = join_lines (map g (split_lines s))
    /\ g [] = []
    /\ (forall l, whitespace_only l = true -> g l = [])
    /\ (forall (pad text : str) (c : N),
           forallb is_space_tab pad = true ->
           hd_error text = Some c -> is_space_tab c = false ->
           exists pad' : str, g (pad ++ text) = pad' ++ text
                              /\ forallb is_space_tab pad' = true).
Proof.
  set (f1 := fun l : str => if whitespace_only l then [] else l).
  assert (Hsplit : split_lines (whitespace_only_sub s)
                   = map f1 (split_lines s)).
  { unfold whitespace_only_sub, split_lines, join_lines. fold f1.
    apply split_join.
    - pose proof (split_on_not_nil NL s). now destruct (split_on NL s).
    - apply Forall_forall. intros l Hl.
      apply in_map_iff in Hl as (l0 & <- & Hl0).
      unfold f1. destruct (whitespace_only l0); [reflexivity|].
      pose proof (split_on_parts_clean NL s) as Hc.
      rewrite Forall_forall in Hc. now apply Hc. }
  unfold dedent.
  destruct (fold_left margin_step _ None) as [[|x m]|] eqn:Hm.
  1, 3: exists f1; split; [reflexivity|]; split; [reflexivity|];
    split; [intros l Hl; unfold f1; now rewrite Hl|];
    intros pad text c Hp Hc Hb; exists pad; split; [|exact Hp];
    unfold f1; now rewrite (not_whitespace_only pad text Hc Hb).
  assert (Hblank : forallb is_space_tab (x :: m) = true).
  { eapply margin_blank;
      [apply leading_whitespace_blank | | exact Hm]; discriminate. }
  set (f2 := fun l : str =>
               if startswith l (x :: m)
               then skipn (List.length (x :: m)) l else l).
  exists (fun l => f2 (f1 l)).
  split.
  { unfold margin_sub. fold f2. rewrite Hsplit. now rewrite map_map. }
  split; [reflexivity|].
  split; [intros l Hl; unfold f1; now rewrite Hl|].
  intros pad text c Hp Hc Hb.
  unfold f1. rewrite (not_whitespace_only pad text Hc Hb).
  unfold f2. destruct (startswith (pad ++ text) (x :: m)) eqn:Hst.
  - destruct (margin_within_pad _ _ _ Hblank Hc Hb Hst) as [pad' ->].
    exists pad'. split.
    + rewrite <- app_assoc. now rewrite skipn_app, skipn_all, Nat.sub_diag.
    + rewrite forallb_app in Hp. now apply andb_true_iff in Hp as [_ Hp].
  - now exists pad.
Qed.

Lemma drop_while_stop (p : N -> bool) (t : str) (c : N) :
  hd_error t = Some c -> p c = false -> drop_while p t = t.
Proof.
  destruct t as [|x t]; [discriminate|]. intros [= ->] H. simpl. now rewrite H.
Qed.

Lemma no_newline_app (a b : str) :
  no_newline (a ++ b) = no_newline a && no_newline b.
Proof. apply forallb_app. Qed.

(** A text framed by a first line and a last line keeps both through
    [dedent] and [strip], whatever stands between them: what comes out
    starts with the text of the first line, on a line of its own, and ends
    with the text of the last. *)
Lemma dedent_strip_frame (pad_h head pad_f foot tail : str)
    (mid : list str) (ch cf : N) :
  forallb is_space_tab pad_h = true ->
  hd_error head = Some ch -> is_space_tab ch = false -> isspace ch = false ->
  no_newline (pad_h ++ head) = true ->
  forallb is_space_tab pad_f = true ->
  hd_error foot = Some cf -> is_space_tab cf = false ->
  rstrip (foot ++ [NL]) = foot -> foot <> [] ->
  no_newline (pad_f ++ foot) = true ->
  whitespace_only tail = true -> no_newline tail = true ->
  mid <> [] ->
  exists middle,
    strip (dedent (join_lines ([[]; pad_h ++ head] ++ mid
                                 ++ [pad_f ++ foot; tail])))
    = head ++ NL :: middle ++ foot.
Proof.
  intros Hph Hch Hbh Hsh Hnh Hpf Hcf Hbf Hrf Hfne Hnf Hwt Hnt Hmid.
  set (T := join_lines ([[]; pad_h ++ head] ++ mid ++ [pad_f ++ foot; tail])).
  assert (Hs : split_lines T
               = [[]; pad_h ++ head] ++ split_lines (join_lines mid)
                   ++ [pad_f ++ foot; tail]).
  { subst T. unfold split_lines, join_lines.
    change ([[]; pad_h ++ head] ++ mid ++ [pad_f ++ foot; tail])
      with ([[]; pad_h ++ head] ++ mid ++ [pad_f ++ foot] ++ [tail]).
    rewrite !app_assoc.
    rewrite (@join_with_last NL _ tail) by (simpl; discriminate).
    rewrite (@join_with_last NL _ (pad_f ++ foot)) by (simpl; discriminate).
    rewrite !split_on_app_sep.
    rewrite (split_on_one NL tail Hnt), (split_on_one NL _ Hnf).
    destruct mid as [|m0 mid]; [contradiction|].
    change (join_with NL ([[]; pad_h ++ head] ++ m0 :: mid))
      with ([] ++ NL :: (pad_h ++ head)
               ++ NL :: join_with NL (m0 :: mid)).
    rewrite !split_on_app_sep, (split_on_one NL _ Hnh).
    simpl. now rewrite <- !app_assoc. }
  destruct (dedent_lines T) as (g & Hd & Hg0 & Hgw & Hgt).
  destruct (Hgt pad_h head ch Hph Hch Hbh) as (ph & Hgh & Hph').
  destruct (Hgt pad_f foot cf Hpf Hcf Hbf) as (pf & Hgf & Hpf').
  rewrite Hd, Hs, !map_app. cbn [map]. rewrite Hg0, Hgh, Hgf, (Hgw tail Hwt).
  set (X := map g (split_lines (join_lines mid))).
  assert (HX : X <> []).
  { subst X. unfold split_lines.
    pose proof (split_on_not_nil NL (join_lines mid)).
    now destruct (split_on NL (join_lines mid)). }
  destruct X as [|x0 X]; [contradiction|].
  set (J := join_with NL (x0 :: X)).
  exists (J ++ NL :: pf).
  unfold join_lines.
  change ([[]; ph ++ head] ++ (x0 :: X) ++ [pf ++ foot; []])
    with ([[]; ph ++ head] ++ (x0 :: X) ++ [pf ++ foot] ++ [[]]).
  rewrite !app_assoc.
  rewrite (@join_with_last NL _ []) by (simpl; discriminate).
  rewrite (@join_with_last NL _ (pf ++ foot)) by (simpl; discriminate).
  change (join_with NL ([[]; ph ++ head] ++ x0 :: X))
    with ([] ++ NL :: (ph ++ head) ++ NL :: J).
  unfold strip.
  replace ((([] ++ NL :: (ph ++ head) ++ NL :: J) ++ NL :: pf ++ foot) ++ [NL])
    with ((NL :: ph) ++ head ++ (NL :: J ++ NL :: pf) ++ (foot ++ [NL]))
    by same_concatenation.
  unfold lstrip.
  rewrite drop_while_all
    by (simpl; now rewrite (blank_is_space _ Hph')).
  assert (Hhead : hd_error (head ++ (NL :: J ++ NL :: pf) ++ foot ++ [NL])
                  = Some ch)
    by (destruct head; [discriminate | exact Hch]).
  rewrite (drop_while_stop _ _ Hhead Hsh).
  replace (head ++ (NL :: J ++ NL :: pf) ++ foot ++ [NL])
    with ((head ++ NL :: J ++ NL :: pf) ++ (foot ++ [NL]))
    by same_concatenation.
  rewrite rstrip_app by (now rewrite Hrf).
  rewrite Hrf. same_concatenation.
Qed.

(** X7: whatever the metrics hold and however their values are rendered
    (line breaks included), the prompt starts with the sentence that sets
    the assistant's role, on a line of its own, and ends with the
    instruction to answer with a short verdict only: the data can only
    stand between the two. *)
Theorem prompt_is_framed_by_its_instructions {RT : Runtime}
    (d : list (str * value)) :
  exists middle,
    build_prompt (PyDict d)
    = ([], Return (prompt_head ++ NL :: middle ++ prompt_foot)).
Proof.
  rewrite build_prompt_dict, rendered_prompt_eq. cbv zeta.
  set (cpu := py_str _). set (memory := py_str _). set (services := py_str _).
  destruct (@dedent_strip_frame
              (u "        ") prompt_head (u "        ") prompt_foot
              (u "        ")
              [ [];
                u "        Your job:";
                u "          - Look at CPU, memory, and service status.";
                u "          - Respond with ONE or two short sentences.";
                u "          - If everything looks fine, say "
                  ++ quoted (u "All systems green.");
                u "          - If any problem is detected, mention it explicitly";
                u "            (e.g., "
                  ++ quoted (u "Issue detected in Plex service") ++ u ").";
                [];
                u "        Data (JSON):";
                u "        CPU load: " ++ cpu;
                u "        Memory: " ++ memory;
                u "        Services: " ++ services;
                [] ]
              89%N 82%N)
    as [middle H]; try (vm_compute; reflexivity); try discriminate.
  exists middle. unfold ret. do 2 apply f_equal. exact H.
Qed.

(** ** The prompt when no rendered value breaks the line *)

Section FlushPrompt.
Variables cpu memory services : str.
Hypothesis Hcpu : no_newline cpu = true.
Hypothesis Hmemory : no_newline memory = true.
Hypothesis Hservices : no_newline services = true.

Lemma template_emptied :
  whitespace_only_sub (prompt_template cpu memory services)
  = join_lines (emptied_template cpu memory services).
Proof using Hcpu Hmemory Hservices.
  unfold whitespace_only_sub, prompt_template, split_lines, join_lines.
  unfold no_newline in *.
  rewrite split_join; [|discriminate|lines_are_clean].
  apply f_equal. vm_compute. reflexivity.
Qed.

Lemma template_margin :
  fold_left margin_step
            (leading_whitespace_findall
               (join_lines (emptied_template cpu memory services)))
            None
  = Some (u "        ").
Proof using Hcpu Hmemory Hservices.
  unfold leading_whitespace_findall, split_lines, join_lines, emptied_template.
  unfold no_newline in *.
  rewrite split_join; [|discriminate|lines_are_clean].
  vm_compute. reflexivity.
Qed.

Lemma template_dedented :
  dedent (prompt_template cpu memory services)
  = join_lines
      ([] :: (flush_lines cpu memory services ++ [prompt_foot]) ++ [[]]).
Proof using Hcpu Hmemory Hservices.
  unfold dedent. rewrite template_emptied, template_margin.
  change (u "        ") with (32%N :: u "       ").
  unfold margin_sub, split_lines, join_lines, emptied_template.
  unfold no_newline in *.
  rewrite split_join; [|discriminate|lines_are_clean].
  apply f_equal. vm_compute. reflexivity.
Qed.

Lemma template_stripped :
  strip (dedent (prompt_template cpu memory services))
  = flush_prompt cpu memory services.
Proof using Hcpu Hmemory Hservices.
  rewrite template_dedented.
  change (flush_prompt cpu memory services)
    with (join_lines (flush_lines cpu memory services ++ [prompt_foot])).
  unfold join_lines.
  change ([] :: (flush_lines cpu memory services ++ [prompt_foot]) ++ [[]])
    with (([] :: flush_lines cpu memory services ++ [prompt_foot]) ++ [[]]).
  rewrite (@join_with_last NL _ []) by (simpl; discriminate).
  change (join_with NL
            ([] :: flush_lines cpu memory services ++ [prompt_foot]))
    with ([] ++ NL :: join_with NL (flush_lines cpu memory services
                                      ++ [prompt_foot])).
  rewrite (@join_with_last NL _ prompt_foot) by discriminate.
  set (body := join_with NL (flush_lines cpu memory services)).
  assert (Hbody : hd_error ((body ++ NL :: prompt_foot) ++ [NL]) = Some 89%N)
    by reflexivity.
  unfold strip, lstrip.
  change (([] ++ NL :: body ++ NL :: prompt_foot) ++ [NL])
    with (NL :: (body ++ NL :: prompt_foot) ++ [NL]).
  change (drop_while isspace (NL :: (body ++ NL :: prompt_foot) ++ [NL]))
    with (drop_while isspace ((body ++ NL :: prompt_foot) ++ [NL])).
  rewrite (drop_while_stop _ _ Hbody eq_refl).
  assert (E : (body ++ NL :: prompt_foot) ++ [NL]
              = (body ++ [NL]) ++ (prompt_foot ++ [NL]))
    by same_concatenation.
  rewrite E.
  assert (Hfoot : rstrip (prompt_foot ++ [NL]) = prompt_foot)
    by (vm_compute; reflexivity).
  rewrite rstrip_app by (rewrite Hfoot; discriminate).
  rewrite Hfoot. same_concatenation.
Qed.
End FlushPrompt.

(** X8: when none of the three rendered values holds a line break (as for
    every number, list and object, whose rendering escapes them), the prompt
    is exactly the template without its margin of eight spaces and without
    its blank first and last lines, the values standing as they are behind
    their labels. *)
Theorem prompt_text_when_values_fit_a_line {RT : Runtime}
    (d : list (str * value)) :
  no_newline (py_str (metric d "cpu_load")) = true ->
  no_newline (py_str (metric d "memory")) = true ->
  no_newline (py_str (metric d "services")) = true ->
  build_prompt (PyDict d)
  = ([], Return (flush_prompt (py_str (metric d "cpu_load"))
                              (py_str (metric d "memory"))
                              (py_str (metric d "services")))).
Proof.
  intros Hc Hm Hs.
  rewrite build_prompt_dict, rendered_prompt_eq. cbv zeta.
  unfold ret. do 2 apply f_equal.
  exact (template_stripped _ _ _ Hc Hm Hs).
Qed.

Lemma prompt_text_when_values_fit_a_line_witness :
  build_prompt (RT := Reference.runtime)
    (PyDict [ (u "cpu_load", PyDict [(u "load1", PyFloat (FDec false 42 (-2)))]);
              (u "services", PyStr (u "plex: down")) ])
  = ret (flush_prompt (u "{'load1': 0.42}") (u "{}") (u "plex: down")).
Proof.
  refine (prompt_text_when_values_fit_a_line (RT := Reference.runtime)
            [ (u "cpu_load", PyDict [(u "load1", PyFloat (FDec false 42 (-2)))]);
              (u "services", PyStr (u "plex: down")) ] _ _ _);
    vm_compute; reflexivity.
Defined.
